(** * xbtests / timers: a shallow embedding of [timers/main.c]

    The program surveys three clocks of the original Xbox (the ACPI
    performance counter, the kernel tick counter and the CPU time stamp
    counter), prints how many milliseconds each one saw since a common
    baseline, once per [SAMPLE_STEP], and reboots after [SAMPLE_END].

    C integers are modelled as [Z] with the wrap-around of their width
    written out.  Calls into the kernel, the display library and the two
    inline-assembly instructions are effects of a small monad that reads
    its inputs from a [Platform] and logs every interaction in a trace. *)

From Stdlib Require Import ZArith List String Ascii Lia Bool DecimalString.
Import ListNotations.
Open Scope Z_scope.

(** ** Machine integers *)

Module Machine.

(** [unsigned] (and [ULONG]) on the i386 target: 32 bits. *)
Definition wrap32 (z : Z) : Z := z mod 2 ^ 32.

(** [unsigned long long]: 64 bits. *)
Definition wrap64 (z : Z) : Z := z mod 2 ^ 64.

(** The [int] that has the bit pattern of a 32-bit word. *)
Definition signed32 (z : Z) : Z :=
  let u := wrap32 z in if u <? 2 ^ 31 then u else u - 2 ^ 32.

(** The [long long] that has the bit pattern of a 64-bit word. *)
Definition signed64 (z : Z) : Z :=
  let u := wrap64 z in if u <? 2 ^ 63 then u else u - 2 ^ 64.

(** [a / b] on two [unsigned] operands; dividing by zero traps. *)
Definition udiv32 (a b : Z) : option Z :=
  if b =? 0 then None else Some (a / b).

(** The x86 instruction [div r/m32]: divides EDX:EAX by the operand,
    leaves the quotient in EAX and the remainder in EDX, and raises the
    divide error #DE when the operand is zero or the quotient does not
    fit in 32 bits.  The result is the pair (EAX, EDX). *)
Definition x86_div32 (edx eax src : Z) : option (Z * Z) :=
  if src =? 0 then None
  else
    let temp := (edx * 2 ^ 32 + eax) / src in
    if temp >? 4294967295 then None
    else Some (temp, (edx * 2 ^ 32 + eax) mod src).

End Machine.
Import Machine.

(** ** The platform and the interaction trace *)

(** A caller-supplied address; [None] is [NULL]. *)
Definition ptr := Z.

(** What the program reads from the console during one run.  The [n]-th
    call of a query returns the [n]-th element of its stream. *)
Record Platform := {
  pb_init_result : Z;                 (* int returned by pb_init() *)
  perf_frequency : Z;                 (* KeQueryPerformanceFrequency() *)
  perf_counter : nat -> Z;            (* KeQueryPerformanceCounter() *)
  tick_count : nat -> Z;              (* reads of KeTickCount *)
  tsc_halves : nat -> Z * Z;          (* (EDX, EAX) left by rdtsc *)
  indeterminate : Z                   (* content of an uninitialised local *)
}.

Inductive event : Type :=
| EvPbInit (r : Z)
| EvShowDebugScreen
| EvPerfCounter (v : Z)
| EvPerfFrequency (v : Z)
| EvTickCount (v : Z)
| EvRdtsc (hi lo : Z)
| EvClearScreen
| EvPrint (s : string)
| EvSleep (ms : Z)
| EvPbKill
| EvReboot
| EvStore (p : ptr) (v : Z).

Record State := {
  perf_reads : nat;
  tick_reads : nat;
  tsc_reads : nat;
  trace : list event
}.

Definition initial : State :=
  {| perf_reads := 0; tick_reads := 0; tsc_reads := 0; trace := [] |}.

Definition log (e : event) (s : State) : State :=
  {| perf_reads := perf_reads s; tick_reads := tick_reads s;
     tsc_reads := tsc_reads s; trace := trace s ++ [e] |}.

(** How a computation ends: it returns, the console restarts (control
    never comes back from [XReboot]), the CPU raises #DE, or the model's
    loop budget is exhausted. *)
Inductive outcome (A : Type) : Type :=
| Ret (a : A) (s : State)
| Rebooted (s : State)
| DivideError (s : State)
| OutOfFuel (s : State).
Arguments Ret {A} a s.
Arguments Rebooted {A} s.
Arguments DivideError {A} s.
Arguments OutOfFuel {A} s.

Definition final {A : Type} (o : outcome A) : State :=
  match o with
  | Ret _ s | Rebooted s | DivideError s | OutOfFuel s => s
  end.

Definition M (A : Type) : Type := Platform -> State -> outcome A.

Definition ret {A : Type} (a : A) : M A := fun _ s => Ret a s.

Definition bind {A B : Type} (m : M A) (f : A -> M B) : M B :=
  fun hw s =>
    match m hw s with
    | Ret a s' => f a hw s'
    | Rebooted s' => Rebooted s'
    | DivideError s' => DivideError s'
    | OutOfFuel s' => OutOfFuel s'
    end.

Declare Scope prog_scope.
Delimit Scope prog_scope with prog.
Notation "x <- m ;; k" := (bind m (fun x => k))
  (at level 61, m at next level, right associativity) : prog_scope.
Notation "' p <- m ;; k" := (bind m (fun p => k))
  (at level 61, p pattern, m at next level, right associativity) : prog_scope.
Notation "m ;; k" := (bind m (fun _ => k))
  (at level 61, right associativity) : prog_scope.
Open Scope prog_scope.

Definition emit (e : event) : M unit := fun _ s => Ret tt (log e s).

Definition trap {A : Type} (o : option A) : M A :=
  fun _ s => match o with Some a => Ret a s | None => DivideError s end.

Definition out_of_fuel {A : Type} : M A := fun _ s => OutOfFuel s.

(** ** Calls into the kernel, the HAL and the display library

    Their code is not part of this program; each call is an interaction
    with the platform, logged in the trace. *)

Definition pb_init : M Z :=
  fun hw s => Ret (pb_init_result hw) (log (EvPbInit (pb_init_result hw)) s).

Definition pb_show_debug_screen : M unit := emit EvShowDebugScreen.

Definition pb_kill : M unit := emit EvPbKill.

Definition debugClearScreen : M unit := emit EvClearScreen.

Definition XSleep (ms : Z) : M unit := emit (EvSleep ms).

(** Modelled from the spec: the restart primitive of the HAL, whose code
    is outside [timers/main.c]; "control does not return". *)
Definition XReboot : M unit := fun _ s => Rebooted (log EvReboot s).

Definition KeQueryPerformanceCounter : M Z :=
  fun hw s =>
    let v := perf_counter hw (perf_reads s) in
    Ret v {| perf_reads := S (perf_reads s); tick_reads := tick_reads s;
             tsc_reads := tsc_reads s;
             trace := trace s ++ [EvPerfCounter v] |}.

Definition KeQueryPerformanceFrequency : M Z :=
  fun hw s => Ret (perf_frequency hw) (log (EvPerfFrequency (perf_frequency hw)) s).

Definition KeTickCount : M Z :=
  fun hw s =>
    let v := tick_count hw (tick_reads s) in
    Ret v {| perf_reads := perf_reads s; tick_reads := S (tick_reads s);
             tsc_reads := tsc_reads s;
             trace := trace s ++ [EvTickCount v] |}.

(** [asm volatile ("rdtsc" : "=d" (hi), "=a" (lo))] *)
Definition asm_rdtsc : M (Z * Z) :=
  fun hw s =>
    let '(hi, lo) := tsc_halves hw (tsc_reads s) in
    Ret (hi, lo) {| perf_reads := perf_reads s; tick_reads := tick_reads s;
                    tsc_reads := S (tsc_reads s);
                    trace := trace s ++ [EvRdtsc hi lo] |}.

(** [asm ("divl %1" : "=a" (quotient) : "r" (divisor), "d" (hi), "a" (lo))]:
    EAX is the only output operand, so all that reaches C is the quotient. *)
Definition asm_divl (divisor hi lo : Z) : M Z :=
  trap (option_map fst (x86_div32 hi lo divisor)).

(** A local variable read before anything was assigned to it. *)
Definition uninitialised : M Z := fun hw s => Ret (indeterminate hw) s.

(** [*p = v] *)
Definition store (p : ptr) (v : Z) : M unit := emit (EvStore p v).

(** ** Formatted output *)

Definition nl : string := String "010"%char EmptyString.

(** [%d]: the argument word read as an [int], in decimal. *)
Definition fmt_d (a : Z) : string :=
  NilZero.string_of_int (Z.to_int (signed32 a)).

(** [%u]: the argument word read as an [unsigned], in decimal. *)
Definition fmt_u (a : Z) : string :=
  NilZero.string_of_uint (N.to_uint (Z.to_N (wrap32 a))).

(** The conversions of the format strings this program uses. *)
Fixpoint vsprintf (fmt : string) (args : list Z) : string :=
  match fmt with
  | EmptyString => EmptyString
  | String "%" (String "d" rest) =>
      match args with
      | a :: args' => fmt_d a ++ vsprintf rest args'
      | [] => vsprintf rest []
      end
  | String c rest => String c (vsprintf rest args)
  end.

(** [#define printf debugPrint] *)
Definition printf (fmt : string) (args : list Z) : M unit :=
  emit (EvPrint (vsprintf fmt args)).

(** ** The program *)

Definition SAMPLE_STEP : Z := 1000.
Definition SAMPLE_END : Z := 315000.

(** Unsigned divide 64-bit by 32-bit *)
Definition divl (dividend divisor : Z) (remainder : option ptr) : M Z :=
  let hi := wrap32 (Z.shiftr dividend 32) in
  let lo := wrap32 dividend in
  _remainder <- uninitialised ;;
  quotient <- asm_divl divisor hi lo ;;
  match remainder with
  | Some p => store p _remainder
  | None => ret tt
  end ;;
  ret quotient.

(** [((long long) hi << 32) | lo], returned as [unsigned long long] *)
Definition tsc_value (hi lo : Z) : Z :=
  wrap64 (Z.lor (signed64 (Z.shiftl hi 32)) lo).

(** Read the time stamp counter *)
Definition rdtsc : M Z :=
  '(hi, lo) <- asm_rdtsc ;;
  ret (tsc_value hi lo).

(** Convert timestamp counter readings to milliseconds *)
Definition tsc_to_ms (tsc : Z) : M Z :=
  let freq := 733333 in
  divl tsc freq None.

(** [(ULONG)(perf_cur-perf_start) / perf_freq] *)
Definition perf_delta (perf_cur perf_start perf_freq : Z) : option Z :=
  udiv32 (wrap32 (wrap64 (perf_cur - perf_start))) perf_freq.

(** [ticks_cur - ticks_start], assigned to an [unsigned] *)
Definition ticks_delta (ticks_cur ticks_start : Z) : Z :=
  wrap32 (wrap64 (ticks_cur - ticks_start)).

(** [tsc_to_ms(tsc_cur - tsc_start)] *)
Definition tsc_delta (tsc_cur tsc_start : Z) : M Z :=
  tsc_to_ms (wrap64 (tsc_cur - tsc_start)).

(** Display counters *)
Definition display (pd td cd : Z) : M unit :=
  debugClearScreen ;;
  printf ("Performance Counter: %d ms elapsed" ++ nl) [pd] ;;
  printf ("       Tick Counter: %d ms elapsed" ++ nl) [td] ;;
  printf (" Time Stamp Counter: %d ms elapsed" ++ nl) [cd] ;;
  printf nl [].

(** The body of the sampling loop. *)
Definition sample (step perf_start perf_freq ticks_start tsc_start : Z)
  : M unit :=
  perf_cur <- KeQueryPerformanceCounter ;;
  ticks_cur <- KeTickCount ;;
  tsc_cur <- rdtsc ;;
  pd <- trap (perf_delta perf_cur perf_start perf_freq) ;;
  let td := ticks_delta ticks_cur ticks_start in
  cd <- tsc_delta tsc_cur tsc_start ;;
  display pd td cd ;;
  XSleep step.

(** [for (elapsed = 0; elapsed < end; elapsed += step) body], entered
    with the current value of [elapsed]; [fuel] bounds the number of
    iterations. *)
Fixpoint for_loop (fuel : nat) (step end_ : Z) (body : Z -> M unit)
  (elapsed : Z) : M unit :=
  if elapsed <? end_ then
    match fuel with
    | O => out_of_fuel
    | S fuel' =>
        body elapsed ;;
        for_loop fuel' step end_ body (wrap32 (elapsed + step))
    end
  else ret tt.

(** [main], with the two build-time constants as parameters. *)
Definition main_with (step end_ : Z) (fuel : nat) : M unit :=
  failed <- pb_init ;;
  (if failed =? 0 then ret tt else XSleep 2000 ;; XReboot) ;;
  pb_show_debug_screen ;;
  perf_start <- KeQueryPerformanceCounter ;;
  freq <- KeQueryPerformanceFrequency ;;
  let perf_freq := wrap32 freq / 1000 in
  ticks_start <- KeTickCount ;;
  tsc_start <- rdtsc ;;
  for_loop fuel step end_
    (fun _ => sample step perf_start perf_freq ticks_start tsc_start) 0 ;;
  pb_kill ;;
  XReboot.

Definition main (fuel : nat) : M unit := main_with SAMPLE_STEP SAMPLE_END fuel.

(** ** Reference runs and expected traces *)

(** A console whose three clocks run at their nominal rates: 3.375 MHz,
    1 kHz and 733.333 MHz.  The baseline and the first sample are taken
    at time zero, every later sample one second after the previous one. *)
Definition nominal : Platform :=
  {| pb_init_result := 0;
     perf_frequency := 3375000;
     perf_counter := fun n => 3375000 * Z.of_nat (Nat.pred n);
     tick_count := fun n => 1000 * Z.of_nat (Nat.pred n);
     tsc_halves := fun n =>
       ((733333000 * Z.of_nat (Nat.pred n)) / 2 ^ 32,
        (733333000 * Z.of_nat (Nat.pred n)) mod 2 ^ 32);
     indeterminate := 0 |}.

(** The same console with a display that fails to initialise. *)
Definition broken_display : Platform :=
  {| pb_init_result := 1;
     perf_frequency := perf_frequency nominal;
     perf_counter := perf_counter nominal;
     tick_count := tick_count nominal;
     tsc_halves := tsc_halves nominal;
     indeterminate := indeterminate nominal |}.

(** [body x1 ;; body x2 ;; ...] *)
Fixpoint iterate (body : Z -> M unit) (xs : list Z) : M unit :=
  match xs with
  | [] => ret tt
  | x :: xs' => body x ;; iterate body xs'
  end.

(** The number of times a loop from 0 in steps of [step] stays below
    [end_], and the values its counter takes. *)
Definition iterations (step end_ : Z) : nat :=
  Z.to_nat ((end_ + step - 1) / step).

Definition loop_counters (step end_ : Z) : list Z :=
  map (fun k => Z.of_nat k * step) (seq 0 (iterations step end_)).

(** The state in which each of the three clocks was read [n] times. *)
Definition after_reads (n : nat) (tr : list event) : State :=
  {| perf_reads := n; tick_reads := n; tsc_reads := n; trace := tr |}.

(** The [n]-th readings and the deltas of a run against reading 0. *)
Definition tsc_at (hw : Platform) (n : nat) : Z :=
  tsc_value (fst (tsc_halves hw n)) (snd (tsc_halves hw n)).

Definition perf_freq_of (hw : Platform) : Z :=
  wrap32 (perf_frequency hw) / 1000.

Definition perf_delta_at (hw : Platform) (n : nat) : Z :=
  wrap32 (wrap64 (perf_counter hw n - perf_counter hw 0)) / perf_freq_of hw.

Definition ticks_delta_at (hw : Platform) (n : nat) : Z :=
  ticks_delta (tick_count hw n) (tick_count hw 0).

Definition tsc_delta_at (hw : Platform) (n : nat) : Z :=
  wrap64 (tsc_at hw n - tsc_at hw 0) / 733333.

(** No division of the [n]-th sample raises #DE. *)
Definition no_divide_error (hw : Platform) (n : nat) : Prop :=
  perf_freq_of hw <> 0 /\ tsc_delta_at hw n < 2 ^ 32.

Definition display_events (pd td cd : Z) : list event :=
  [EvClearScreen;
   EvPrint (vsprintf ("Performance Counter: %d ms elapsed" ++ nl) [pd]);
   EvPrint (vsprintf ("       Tick Counter: %d ms elapsed" ++ nl) [td]);
   EvPrint (vsprintf (" Time Stamp Counter: %d ms elapsed" ++ nl) [cd]);
   EvPrint nl].

Definition sample_events (step : Z) (hw : Platform) (n : nat) : list event :=
  [EvPerfCounter (perf_counter hw n); EvTickCount (tick_count hw n);
   EvRdtsc (fst (tsc_halves hw n)) (snd (tsc_halves hw n))]
  ++ display_events (perf_delta_at hw n) (ticks_delta_at hw n)
       (tsc_delta_at hw n)
  ++ [EvSleep step].

Definition baseline_events (hw : Platform) : list event :=
  [EvPbInit (pb_init_result hw); EvShowDebugScreen;
   EvPerfCounter (perf_counter hw 0); EvPerfFrequency (perf_frequency hw);
   EvTickCount (tick_count hw 0);
   EvRdtsc (fst (tsc_halves hw 0)) (snd (tsc_halves hw 0))].

Definition is_store (e : event) : bool :=
  match e with EvStore _ _ => true | _ => false end.

Definition is_clear (e : event) : bool :=
  match e with EvClearScreen => true | _ => false end.

Definition is_read (e : event) : bool :=
  match e with
  | EvPerfCounter _ | EvPerfFrequency _ | EvTickCount _ | EvRdtsc _ _ => true
  | _ => false
  end.

(** [m] only appends to the trace, and never a store through a pointer,
    however it ends. *)
Definition store_free {A : Type} (m : M A) : Prop :=
  forall (hw : Platform) (s : State),
    exists evs, trace (final (m hw s)) = trace s ++ evs
                /\ existsb is_store evs = false.

(** ** The display contract in the words of the specification *)

(** ["<Label>: %u ms elapsed"], one line. *)
Definition spec_line (label : string) (delta : Z) : string :=
  label ++ ": " ++ fmt_u delta ++ " ms elapsed" ++ nl.

(** A line without the blanks in front of it. *)
Fixpoint skip_blanks (s : string) : string :=
  match s with
  | String " " rest => skip_blanks rest
  | _ => s
  end.

(** ** Measures of a trace *)

(** The milliseconds a run asked [XSleep] for, in total. *)
Fixpoint slept (tr : list event) : Z :=
  match tr with
  | [] => 0
  | EvSleep ms :: tr' => ms + slept tr'
  | _ :: tr' => slept tr'
  end.

(** The three reads that open the [n]-th sample. *)
Definition sample_reads (hw : Platform) (n : nat) : list event :=
  [EvPerfCounter (perf_counter hw n); EvTickCount (tick_count hw n);
   EvRdtsc (fst (tsc_halves hw n)) (snd (tsc_halves hw n))].

(** The least dividend at which [tsc_to_ms] overflows its quotient. *)
Definition tsc_to_ms_limit : Z := 733333 * 2 ^ 32.

(** A console whose performance counter reports fewer than 1000 ticks per
    second, and one whose time stamp counter reads less than the baseline
    at the third sample. *)
Definition slow_timer : Platform :=
  {| pb_init_result := 0;
     perf_frequency := 999;
     perf_counter := perf_counter nominal;
     tick_count := tick_count nominal;
     tsc_halves := tsc_halves nominal;
     indeterminate := 0 |}.

(** A console whose tick counter stands 3000000000 ms after the baseline
    at every sample. *)
Definition tick_jumps : Platform :=
  {| pb_init_result := 0;
     perf_frequency := perf_frequency nominal;
     perf_counter := perf_counter nominal;
     tick_count := fun n => if Nat.eqb n 0 then 0 else 3000000000;
     tsc_halves := tsc_halves nominal;
     indeterminate := 0 |}.

Definition tsc_rewinds : Platform :=
  {| pb_init_result := 0;
     perf_frequency := perf_frequency nominal;
     perf_counter := perf_counter nominal;
     tick_count := tick_count nominal;
     tsc_halves := fun n => if Nat.eqb n 3 then (0, 0) else (0, 1000);
     indeterminate := 0 |}.

(** ** Machine arithmetic *)

Lemma wrap32_small (z : Z) : 0 <= z < 2 ^ 32 -> wrap32 z = z.
Proof. intros H. unfold wrap32. now apply Z.mod_small. Qed.

Lemma wrap64_small (z : Z) : 0 <= z < 2 ^ 64 -> wrap64 z = z.
Proof. intros H. unfold wrap64. now apply Z.mod_small. Qed.

Lemma wrap32_range (z : Z) : 0 <= wrap32 z < 2 ^ 32.
Proof. unfold wrap32. apply Z.mod_pos_bound. lia. Qed.

Lemma wrap64_range (z : Z) : 0 <= wrap64 z < 2 ^ 64.
Proof. unfold wrap64. apply Z.mod_pos_bound. lia. Qed.

Lemma wrap32_wrap64 (z : Z) : wrap32 (wrap64 z) = wrap32 z.
Proof.
  unfold wrap32, wrap64.
  apply Z.mod_mod_divide.
  exists (2 ^ 32). reflexivity.
Qed.

(** The two halves handed to the divide instruction are the dividend. *)
Lemma halves_of_dividend (d : Z) :
  0 <= d < 2 ^ 64 ->
  wrap32 (Z.shiftr d 32) * 2 ^ 32 + wrap32 d = d.
Proof.
  intros H. rewrite Z.shiftr_div_pow2 by lia.
  rewrite (wrap32_small (d / 2 ^ 32)).
  - unfold wrap32. pose proof (Z.div_mod d (2 ^ 32)). lia.
  - split.
    + apply Z.div_pos; lia.
    + apply Z.div_lt_upper_bound; lia.
Qed.

Lemma quotient_fits (d v : Z) :
  0 < v -> 0 <= d -> (d < 2 ^ 32 * v <-> d / v < 2 ^ 32).
Proof.
  intros Hv Hd. split; intros H.
  - apply Z.div_lt_upper_bound; lia.
  - pose proof (Z.div_mod d v). pose proof (Z.mod_pos_bound d v). nia.
Qed.

(** What [divl] does inside its contract: the quotient is the truncating
    quotient; the word written through a non-null [remainder] is the
    content of the unassigned local. *)
Lemma divl_run (d v : Z) (r : option ptr) (hw : Platform) (s : State) :
  0 <= d < 2 ^ 64 -> 0 < v -> d / v < 2 ^ 32 ->
  divl d v r hw s =
  Ret (d / v)
      match r with
      | Some p => log (EvStore p (indeterminate hw)) s
      | None => s
      end.
Proof.
  intros Hd Hv Hq.
  unfold divl, bind, uninitialised, asm_divl, trap, x86_div32.
  rewrite halves_of_dividend by assumption.
  destruct (Z.eqb_spec v 0); [lia|].
  destruct (Z.gtb_spec (d / v) 4294967295); [lia|].
  cbn. destruct r; reflexivity.
Qed.

Lemma wrap64_lor (a b : Z) :
  wrap64 (Z.lor a b) = Z.lor (wrap64 a) (wrap64 b).
Proof.
  unfold wrap64. rewrite <- !Z.land_ones by lia.
  apply Z.land_lor_distr_l.
Qed.

Lemma wrap64_signed64 (z : Z) : wrap64 (signed64 z) = wrap64 z.
Proof.
  unfold signed64. destruct (wrap64 z <? 2 ^ 63).
  - unfold wrap64. apply Z.mod_mod. lia.
  - unfold wrap64.
    replace (z mod 2 ^ 64 - 2 ^ 64) with (z mod 2 ^ 64 + (-1) * 2 ^ 64) by lia.
    rewrite Z.mod_add by lia. apply Z.mod_mod. lia.
Qed.

(** A word shifted past a 32-bit word shares no bit with it. *)
Lemma halves_disjoint (hi lo : Z) :
  0 <= lo < 2 ^ 32 -> Z.land (Z.shiftl hi 32) lo = 0.
Proof.
  intros Hlo. apply Z.bits_inj'. intros n Hn.
  rewrite Z.land_spec, Z.bits_0.
  destruct (Z.lt_ge_cases n 32) as [Hlt | Hge].
  - rewrite Z.shiftl_spec_low by assumption. reflexivity.
  - rewrite <- (Z.mod_small lo (2 ^ 32)) by assumption.
    rewrite Z.mod_pow2_bits_high by lia. apply andb_false_r.
Qed.

Lemma tsc_value_eq (hi lo : Z) :
  0 <= hi < 2 ^ 32 -> 0 <= lo < 2 ^ 32 ->
  tsc_value hi lo = hi * 2 ^ 32 + lo.
Proof.
  intros Hhi Hlo. unfold tsc_value.
  rewrite wrap64_lor, wrap64_signed64.
  assert (Hs : Z.shiftl hi 32 = hi * 2 ^ 32) by (apply Z.shiftl_mul_pow2; lia).
  rewrite (wrap64_small (Z.shiftl hi 32)) by (rewrite Hs; lia).
  rewrite (wrap64_small lo) by lia.
  pose proof (Z.add_lor_land (Z.shiftl hi 32) lo) as Hadd.
  rewrite halves_disjoint in Hadd by assumption.
  rewrite <- Hs. lia.
Qed.

(** ** The instructions and the formats on a few inputs *)

Example x86_div32_exact : x86_div32 0 7 2 = Some (3, 1).
Proof. reflexivity. Qed.

Example x86_div32_wide : x86_div32 1 0 2 = Some (2147483648, 0).
Proof. reflexivity. Qed.

Example x86_div32_overflow : x86_div32 2 0 2 = None.
Proof. reflexivity. Qed.

Example x86_div32_by_zero : x86_div32 0 7 0 = None.
Proof. reflexivity. Qed.

Example divl_null_remainder : divl 7 2 None nominal initial = Ret 3 initial.
Proof. reflexivity. Qed.

Example tsc_to_ms_one_second :
  tsc_to_ms 733333000 nominal initial = Ret 1000 initial.
Proof. reflexivity. Qed.

Example tsc_to_ms_overflow :
  tsc_to_ms (2 ^ 64 - 1) nominal initial = DivideError initial.
Proof. reflexivity. Qed.

Example fmt_d_small : fmt_d 3800 = "3800"%string.
Proof. reflexivity. Qed.

Example fmt_d_large : fmt_d 4294967295 = "-1"%string.
Proof. reflexivity. Qed.

Example fmt_u_large : fmt_u 4294967295 = "4294967295"%string.
Proof. reflexivity. Qed.

Example tsc_value_top_bit : tsc_value 2147483648 1 = 2 ^ 63 + 1.
Proof. reflexivity. Qed.

(** Two seconds into a nominal run all three clocks agree on 2000 ms. *)
Example nominal_after_two_seconds :
  sample_events 1000 nominal 3
  = [EvPerfCounter 6750000; EvTickCount 2000; EvRdtsc 0 1466666000;
     EvClearScreen;
     EvPrint ("Performance Counter: 2000 ms elapsed" ++ nl);
     EvPrint ("       Tick Counter: 2000 ms elapsed" ++ nl);
     EvPrint (" Time Stamp Counter: 2000 ms elapsed" ++ nl);
     EvPrint nl;
     EvSleep 1000].
Proof. reflexivity. Qed.

(** ** The division primitive and the converters *)

(** C1 (code defect).  Inside its contract (V > 0, D < 2^32 * V) [divl]
    returns the quotient D / V, but the word it stores through a non-null
    remainder pointer is the never-assigned local [_remainder], not D mod V:
    at D = 7, V = 2 it returns 3 and stores the indeterminate word (0 on the
    reference console) where the remainder 1 is due, and whatever that word
    is, some input of the contract breaks Q*V + R = D. *)
Theorem divl_stores_unassigned_remainder :
  divl 7 2 (Some 0) nominal initial = Ret 3 (log (EvStore 0 0) initial)
  /\ 3 * 2 + 0 <> 7
  /\ forall (hw : Platform) (s : State) (p : ptr),
       exists d v q r,
         0 < v /\ 0 <= d < 2 ^ 32 * v
         /\ divl d v (Some p) hw s = Ret q (log (EvStore p r) s)
         /\ q = d / v /\ q * v + r <> d.
Proof.
  split; [reflexivity | split; [lia |]].
  intros hw s p.
  destruct (Z.eq_dec (indeterminate hw) 0) as [E | E].
  - exists 1, 2, 0, 0.
    split; [lia | split; [lia | split; [| split; [reflexivity | lia]]]].
    rewrite (divl_run 1 2 (Some p)) by (cbn; lia).
    rewrite E. reflexivity.
  - exists 0, 1, 0, (indeterminate hw).
    split; [lia | split; [lia | split; [| split; [reflexivity | lia]]]].
    rewrite (divl_run 0 1 (Some p)) by (cbn; lia).
    reflexivity.
Qed.

(** C4.  For every 64-bit cycle count whose quotient fits in 32 bits,
    [tsc_to_ms] returns the truncating quotient by 733333, leaves the state
    untouched, and does so by calling [divl] with a null remainder pointer;
    [tsc_to_ms 0] is 0. *)
Theorem tsc_to_ms_truncating_quotient :
  forall (t : Z) (hw : Platform) (s : State),
    0 <= t < 2 ^ 64 -> t / 733333 < 2 ^ 32 ->
    tsc_to_ms t hw s = Ret (t / 733333) s
    /\ tsc_to_ms t = divl t 733333 None
    /\ tsc_to_ms 0 hw s = Ret 0 s.
Proof.
  intros t hw s Ht Hq. split; [| split].
  - unfold tsc_to_ms. now rewrite divl_run by (assumption || lia).
  - reflexivity.
  - unfold tsc_to_ms. now rewrite divl_run by (cbn; lia).
Qed.

Lemma tsc_to_ms_truncating_quotient_witness :
  tsc_to_ms 1466666000 nominal initial = Ret (1466666000 / 733333) initial
  /\ tsc_to_ms 1466666000 = divl 1466666000 733333 None
  /\ tsc_to_ms 0 nominal initial = Ret 0 initial.
Proof.
  apply (tsc_to_ms_truncating_quotient 1466666000 nominal initial).
  - lia.
  - vm_compute. reflexivity.
Defined.

(** C7.  [tsc_to_ms] is monotonically non-decreasing on the inputs whose
    quotient fits in 32 bits: there it returns, and a <= b gives
    tsc_to_ms a <= tsc_to_ms b. *)
Theorem tsc_to_ms_monotone :
  forall (a b : Z) (hw : Platform) (s : State),
    0 <= a < 2 ^ 64 -> a / 733333 < 2 ^ 32 ->
    0 <= b < 2 ^ 64 -> b / 733333 < 2 ^ 32 ->
    a <= b ->
    exists qa qb,
      tsc_to_ms a hw s = Ret qa s /\ tsc_to_ms b hw s = Ret qb s /\ qa <= qb.
Proof.
  intros a b hw s Ha Hqa Hb Hqb Hab.
  exists (a / 733333), (b / 733333). unfold tsc_to_ms.
  rewrite !divl_run by (assumption || lia).
  repeat split. apply Z.div_le_mono; lia.
Qed.

Lemma tsc_to_ms_monotone_witness :
  exists qa qb,
    tsc_to_ms 733332 nominal initial = Ret qa initial
    /\ tsc_to_ms 733333 nominal initial = Ret qb initial /\ qa <= qb.
Proof.
  apply (tsc_to_ms_monotone 733332 733333 nominal initial);
    try lia; vm_compute; reflexivity.
Defined.

(** C9.  For every pair of 32-bit halves, the value [rdtsc] builds from
    them is hi * 2^32 + lo: a 64-bit word with hi in its upper and lo in
    its lower 32 bits; [rdtsc] returns it for the halves the instruction
    reported. *)
Theorem rdtsc_combines_halves :
  forall (hi lo : Z),
    0 <= hi < 2 ^ 32 -> 0 <= lo < 2 ^ 32 ->
    tsc_value hi lo = hi * 2 ^ 32 + lo
    /\ 0 <= tsc_value hi lo < 2 ^ 64
    /\ Z.shiftr (tsc_value hi lo) 32 = hi
    /\ wrap32 (tsc_value hi lo) = lo
    /\ forall (hw : Platform) (s : State),
         tsc_halves hw (tsc_reads s) = (hi, lo) ->
         exists s', rdtsc hw s = Ret (hi * 2 ^ 32 + lo) s'.
Proof.
  intros hi lo Hhi Hlo.
  pose proof (tsc_value_eq hi lo Hhi Hlo) as E.
  rewrite E. repeat split; try lia.
  - rewrite Z.shiftr_div_pow2 by lia.
    rewrite Z.add_comm, Z.div_add by lia.
    rewrite Z.div_small by lia. lia.
  - unfold wrap32. rewrite Z.add_comm, Z.mod_add by lia.
    apply Z.mod_small. lia.
  - intros hw s Hh. unfold rdtsc, bind, asm_rdtsc. rewrite Hh.
    cbn. rewrite E. eexists. reflexivity.
Qed.

Lemma rdtsc_combines_halves_witness :
  tsc_value 4294967295 7 = 4294967295 * 2 ^ 32 + 7
  /\ 0 <= tsc_value 4294967295 7 < 2 ^ 64
  /\ Z.shiftr (tsc_value 4294967295 7) 32 = 4294967295
  /\ wrap32 (tsc_value 4294967295 7) = 7
  /\ forall (hw : Platform) (s : State),
       tsc_halves hw (tsc_reads s) = (4294967295, 7) ->
       exists s', rdtsc hw s = Ret (4294967295 * 2 ^ 32 + 7) s'.
Proof.
  apply (rdtsc_combines_halves 4294967295 7); lia.
Defined.

(** ** The deltas of the sampling loop *)

(** C2 as stated fails: a raw performance-counter delta of 2^32 ticks at
    3375 ticks per millisecond is shown as 0 ms, not as 1272582 ms, because
    the difference is cast to a 32-bit [ULONG] before it is divided. *)
Lemma perf_delta_drops_high_bits :
  0 <= 0 <= 2 ^ 32 /\ 2 ^ 32 < 2 ^ 64 /\ 0 < 3375 < 2 ^ 32
  /\ perf_delta (2 ^ 32) 0 3375 = Some 0
  /\ (2 ^ 32 - 0) / 3375 = 1272582
  /\ perf_delta (2 ^ 32) 0 3375 <> Some ((2 ^ 32 - 0) / 3375).
Proof.
  split; [lia | split; [lia | split; [lia |]]].
  split; [reflexivity | split; [reflexivity |]].
  vm_compute. discriminate.
Qed.

(** C2 (amended).  For every pair of readings and every frequency f > 0
    the performance-counter delta is the truncating quotient by f of the
    low 32 bits of current - baseline; it is (current - baseline) / f
    whenever the raw delta is below 2^32, and a raw delta of 3374 at
    f = 3375 gives 0. *)
Theorem perf_delta_truncating_quotient :
  forall (perf_cur perf_start f : Z),
    0 < f ->
    perf_delta perf_cur perf_start f
      = Some (((perf_cur - perf_start) mod 2 ^ 32) / f)
    /\ (0 <= perf_cur - perf_start < 2 ^ 32 ->
        perf_delta perf_cur perf_start f = Some ((perf_cur - perf_start) / f))
    /\ perf_delta (perf_start + 3374) perf_start 3375 = Some 0.
Proof.
  intros cur start f Hf.
  assert (G : forall c b g, 0 < g ->
            perf_delta c b g = Some (((c - b) mod 2 ^ 32) / g)).
  { intros c b g Hg. unfold perf_delta, udiv32.
    rewrite wrap32_wrap64. destruct (Z.eqb_spec g 0); [lia | reflexivity]. }
  split; [| split].
  - now apply G.
  - intros Hsmall. rewrite G by assumption.
    now rewrite Z.mod_small by assumption.
  - rewrite G by lia.
    replace (start + 3374 - start) with 3374 by lia. reflexivity.
Qed.

Lemma perf_delta_truncating_quotient_witness :
  perf_delta 6750000 0 3375 = Some (((6750000 - 0) mod 2 ^ 32) / 3375)
  /\ (0 <= 6750000 - 0 < 2 ^ 32 ->
      perf_delta 6750000 0 3375 = Some ((6750000 - 0) / 3375))
  /\ perf_delta (0 + 3374) 0 3375 = Some 0.
Proof.
  apply (perf_delta_truncating_quotient 6750000 0 3375). lia.
Defined.

(** C6 as stated fails: the difference of the two 64-bit readings is
    narrowed to the 32-bit delta, so a current reading 2^32 after the
    baseline gives 0, and a current reading before the baseline gives a
    large positive word, neither being current - baseline. *)
Lemma ticks_delta_is_narrowed :
  0 <= 0 <= 2 ^ 32 /\ 2 ^ 32 < 2 ^ 64
  /\ ticks_delta (2 ^ 32) 0 = 0
  /\ ticks_delta (2 ^ 32) 0 <> 2 ^ 32 - 0
  /\ ticks_delta 1200 5000 = 4294963496
  /\ ticks_delta 1200 5000 <> 1200 - 5000
  /\ ticks_delta 1200 5000 <> wrap64 (1200 - 5000).
Proof.
  split; [lia | split; [lia |]].
  split; [reflexivity | split; [vm_compute; discriminate |]].
  split; [reflexivity | split; vm_compute; discriminate].
Qed.

(** C6 (amended).  For every pair of readings the tick-counter delta is
    current - baseline reduced modulo 2^32, with no scaling; it is exactly
    current - baseline whenever that difference lies in [0, 2^32), and
    current = 5000, baseline = 1200 gives 3800. *)
Theorem ticks_delta_plain_subtraction :
  forall (ticks_cur ticks_start : Z),
    ticks_delta ticks_cur ticks_start = (ticks_cur - ticks_start) mod 2 ^ 32
    /\ (0 <= ticks_cur - ticks_start < 2 ^ 32 ->
        ticks_delta ticks_cur ticks_start = ticks_cur - ticks_start)
    /\ ticks_delta 5000 1200 = 3800.
Proof.
  intros cur start.
  assert (G : ticks_delta cur start = (cur - start) mod 2 ^ 32).
  { unfold ticks_delta. now rewrite wrap32_wrap64. }
  split; [exact G | split; [| reflexivity]].
  intros Hsmall. rewrite G. now apply Z.mod_small.
Qed.

(** ** Formatted lines *)

Lemma fmt_d_unsigned (d : Z) : 0 <= d < 2 ^ 31 -> fmt_d d = fmt_u d.
Proof.
  intros Hd. unfold fmt_d, fmt_u, signed32.
  rewrite wrap32_small by lia.
  destruct (Z.ltb_spec d (2 ^ 31)); [| lia].
  destruct d; try reflexivity. lia.
Qed.

Lemma line_perf (d : Z) :
  vsprintf ("Performance Counter: %d ms elapsed" ++ nl) [d]
  = ("Performance Counter: " ++ fmt_d d ++ " ms elapsed" ++ nl)%string.
Proof. reflexivity. Qed.

Lemma line_ticks (d : Z) :
  vsprintf ("       Tick Counter: %d ms elapsed" ++ nl) [d]
  = ("       Tick Counter: " ++ fmt_d d ++ " ms elapsed" ++ nl)%string.
Proof. reflexivity. Qed.

Lemma line_tsc (d : Z) :
  vsprintf (" Time Stamp Counter: %d ms elapsed" ++ nl) [d]
  = (" Time Stamp Counter: " ++ fmt_d d ++ " ms elapsed" ++ nl)%string.
Proof. reflexivity. Qed.

Lemma display_run (pd td cd : Z) (hw : Platform) (s : State) :
  display pd td cd hw s
  = Ret tt {| perf_reads := perf_reads s; tick_reads := tick_reads s;
              tsc_reads := tsc_reads s;
              trace := trace s ++ display_events pd td cd |}.
Proof.
  unfold display, display_events, bind, debugClearScreen, printf, emit, log.
  cbn [perf_reads tick_reads tsc_reads trace].
  rewrite <- !app_assoc. reflexivity.
Qed.

(** ** One pass through the loop body *)

Lemma sample_run (step : Z) (hw : Platform) (n : nat) (tr : list event) :
  no_divide_error hw n ->
  sample step (perf_counter hw 0) (perf_freq_of hw) (tick_count hw 0)
    (tsc_at hw 0) hw (after_reads n tr)
  = Ret tt (after_reads (S n) (tr ++ sample_events step hw n)).
Proof.
  intros [Hf Hq].
  unfold sample, bind at 1 2 3.
  unfold KeQueryPerformanceCounter, KeTickCount, rdtsc, bind at 1, asm_rdtsc.
  cbn [perf_reads tick_reads tsc_reads trace after_reads ret].
  destruct (tsc_halves hw n) as [hi lo] eqn:Eh.
  unfold bind at 1, trap, perf_delta, udiv32.
  destruct (Z.eqb_spec (perf_freq_of hw) 0) as [E | _]; [contradiction |].
  unfold bind at 1, tsc_delta, tsc_to_ms.
  assert (Et : tsc_value hi lo = tsc_at hw n)
    by (unfold tsc_at; now rewrite Eh).
  rewrite Et. unfold ret. cbn beta iota.
  rewrite divl_run by (apply wrap64_range || lia || exact Hq).
  unfold bind. rewrite display_run. unfold XSleep, emit, log, after_reads.
  cbn [perf_reads tick_reads tsc_reads trace].
  f_equal. f_equal. unfold sample_events.
  rewrite Eh. cbn [fst snd].
  unfold perf_delta_at, ticks_delta_at, tsc_delta_at.
  rewrite <- !app_assoc. reflexivity.
Qed.

Lemma iterate_sample_run (step : Z) (hw : Platform) :
  forall (xs : list Z) (n : nat) (tr : list event),
    (forall i, (n <= i < n + List.length xs)%nat -> no_divide_error hw i) ->
    iterate (fun _ => sample step (perf_counter hw 0) (perf_freq_of hw)
                        (tick_count hw 0) (tsc_at hw 0))
      xs hw (after_reads n tr)
    = Ret tt (after_reads (n + List.length xs)
                (tr ++ flat_map (sample_events step hw) (seq n (List.length xs)))).
Proof.
  induction xs as [| x xs IH]; intros n tr Hok.
  - cbn. rewrite Nat.add_0_r, app_nil_r. reflexivity.
  - cbn [iterate List.length seq flat_map]. unfold bind.
    rewrite sample_run by (apply Hok; cbn; lia).
    rewrite IH by (intros i Hi; apply Hok; cbn; lia).
    rewrite <- app_assoc. f_equal. f_equal. lia.
Qed.

(** ** The loop header *)

Lemma iterations_spec (step end_ : Z) :
  0 < step -> 0 <= end_ ->
  (Z.of_nat (iterations step end_) - 1) * step < end_
    <= Z.of_nat (iterations step end_) * step.
Proof.
  intros Hs He. unfold iterations.
  assert (Hq : 0 <= (end_ + step - 1) / step) by (apply Z.div_pos; lia).
  rewrite Z2Nat.id by assumption.
  pose proof (Z.div_mod (end_ + step - 1) step) as Hd.
  pose proof (Z.mod_pos_bound (end_ + step - 1) step Hs) as Hm.
  nia.
Qed.

Lemma for_loop_iterate (step end_ : Z) (body : Z -> M unit) :
  0 < step -> 0 <= end_ -> end_ + step <= 2 ^ 32 ->
  forall (m j fuel : nat) (hw : Platform) (s : State),
    (j + m = iterations step end_)%nat -> (m <= fuel)%nat ->
    for_loop fuel step end_ body (Z.of_nat j * step) hw s
    = iterate body (map (fun k => Z.of_nat k * step) (seq j m)) hw s.
Proof.
  intros Hs He Hw.
  pose proof (iterations_spec step end_ Hs He) as [Hlo Hhi].
  induction m as [| m IH]; intros j fuel hw s Hj Hfuel.
  - assert (Hge : end_ <= Z.of_nat j * step) by (rewrite Nat.add_0_r in Hj; now subst j).
    destruct fuel; cbn [for_loop seq map iterate];
      destruct (Z.ltb_spec (Z.of_nat j * step) end_); (lia || reflexivity).
  - assert (Hlt : Z.of_nat j * step < end_) by nia.
    destruct fuel as [| fuel]; [lia |].
    cbn [for_loop seq map iterate].
    destruct (Z.ltb_spec (Z.of_nat j * step) end_); [| lia].
    unfold bind. destruct (body (Z.of_nat j * step) hw s); try reflexivity.
    replace (wrap32 (Z.of_nat j * step + step)) with (Z.of_nat (S j) * step)
      by (rewrite wrap32_small; nia).
    apply IH; lia.
Qed.

(** ** Whole runs *)

Lemma main_run_failed_init (step end_ : Z) (fuel : nat) (hw : Platform) :
  pb_init_result hw <> 0 ->
  main_with step end_ fuel hw initial
  = Rebooted (after_reads 0
                [EvPbInit (pb_init_result hw); EvSleep 2000; EvReboot]).
Proof.
  intros Hf. unfold main_with, bind at 1 2, pb_init.
  destruct (Z.eqb_spec (pb_init_result hw) 0); [contradiction |].
  reflexivity.
Qed.

Lemma main_run_completed (step end_ : Z) (fuel : nat) (hw : Platform) :
  0 < step -> 0 <= end_ -> end_ + step <= 2 ^ 32 ->
  pb_init_result hw = 0 ->
  (forall i, (1 <= i <= iterations step end_)%nat -> no_divide_error hw i) ->
  (iterations step end_ <= fuel)%nat ->
  main_with step end_ fuel hw initial
  = Rebooted (after_reads (S (iterations step end_))
                (baseline_events hw
                 ++ flat_map (sample_events step hw)
                      (seq 1 (iterations step end_))
                 ++ [EvPbKill; EvReboot])).
Proof.
  intros Hs He Hw Hinit Hok Hfuel.
  unfold main_with, bind at 1 2, pb_init. rewrite Hinit. cbn [Z.eqb ret].
  unfold bind at 1 2 3 4 5.
  unfold pb_show_debug_screen, emit, KeQueryPerformanceCounter,
    KeQueryPerformanceFrequency, KeTickCount, rdtsc, bind at 1, asm_rdtsc, log.
  cbn [perf_reads tick_reads tsc_reads trace initial app ret].
  destruct (tsc_halves hw 0) as [hi lo] eqn:Eh.
  assert (Et : tsc_value hi lo = tsc_at hw 0)
    by (unfold tsc_at; now rewrite Eh).
  rewrite Et. unfold ret. cbn beta iota. unfold bind at 1.
  change (wrap32 (perf_frequency hw) / 1000) with (perf_freq_of hw).
  pose proof (for_loop_iterate step end_
    (fun _ => sample step (perf_counter hw 0) (perf_freq_of hw)
                (tick_count hw 0) (tsc_at hw 0))
    Hs He Hw (iterations step end_) 0%nat fuel hw) as Hloop.
  cbn [Z.of_nat Z.mul] in Hloop. rewrite Hloop by lia.
  fold (after_reads 1 [EvPbInit 0; EvShowDebugScreen;
                       EvPerfCounter (perf_counter hw 0);
                       EvPerfFrequency (perf_frequency hw);
                       EvTickCount (tick_count hw 0); EvRdtsc hi lo]).
  rewrite iterate_sample_run
    by (intros i Hi; rewrite length_map, length_seq in Hi; apply Hok; lia).
  rewrite length_map, length_seq.
  unfold bind, pb_kill, emit, XReboot, log, after_reads, baseline_events.
  cbn [perf_reads tick_reads tsc_reads trace].
  rewrite Hinit, Eh. cbn [fst snd].
  f_equal. f_equal. rewrite <- !app_assoc. reflexivity.
Qed.

(** ** What a computation may add to the trace *)

Lemma store_free_silent {A : Type} (m : M A) :
  (forall hw s, trace (final (m hw s)) = trace s) -> store_free m.
Proof.
  intros H hw s. exists []. rewrite app_nil_r. split; [apply H | reflexivity].
Qed.

Lemma store_free_one {A : Type} (m : M A) (e : Platform -> State -> event) :
  (forall hw s, trace (final (m hw s)) = trace s ++ [e hw s]) ->
  (forall hw s, is_store (e hw s) = false) ->
  store_free m.
Proof.
  intros H He hw s. exists [e hw s]. split; [apply H |].
  cbn. now rewrite He.
Qed.

Lemma store_free_ret {A : Type} (a : A) : store_free (ret a).
Proof. now apply store_free_silent. Qed.

Lemma store_free_trap {A : Type} (o : option A) : store_free (trap o).
Proof. apply store_free_silent. intros hw s. now destruct o. Qed.

Lemma store_free_out_of_fuel {A : Type} : store_free (@out_of_fuel A).
Proof. now apply store_free_silent. Qed.

Lemma store_free_uninitialised : store_free uninitialised.
Proof. now apply store_free_silent. Qed.

Lemma store_free_emit (e : event) : is_store e = false -> store_free (emit e).
Proof. intros He. now apply (store_free_one _ (fun _ _ => e)). Qed.

Lemma store_free_pb_init : store_free pb_init.
Proof.
  now apply (store_free_one _ (fun hw _ => EvPbInit (pb_init_result hw))).
Qed.

Lemma store_free_XReboot : store_free XReboot.
Proof. now apply (store_free_one _ (fun _ _ => EvReboot)). Qed.

Lemma store_free_KeQueryPerformanceCounter :
  store_free KeQueryPerformanceCounter.
Proof.
  now apply (store_free_one _
    (fun hw s => EvPerfCounter (perf_counter hw (perf_reads s)))).
Qed.

Lemma store_free_KeQueryPerformanceFrequency :
  store_free KeQueryPerformanceFrequency.
Proof.
  now apply (store_free_one _ (fun hw _ => EvPerfFrequency (perf_frequency hw))).
Qed.

Lemma store_free_KeTickCount : store_free KeTickCount.
Proof.
  now apply (store_free_one _
    (fun hw s => EvTickCount (tick_count hw (tick_reads s)))).
Qed.

Lemma store_free_asm_rdtsc : store_free asm_rdtsc.
Proof.
  apply (store_free_one _
    (fun hw s => EvRdtsc (fst (tsc_halves hw (tsc_reads s)))
                         (snd (tsc_halves hw (tsc_reads s))))).
  - intros hw s. unfold asm_rdtsc. now destruct (tsc_halves hw (tsc_reads s)).
  - reflexivity.
Qed.

Lemma store_free_bind {A B : Type} (m : M A) (f : A -> M B) :
  store_free m -> (forall a, store_free (f a)) -> store_free (bind m f).
Proof.
  intros Hm Hf hw s. unfold bind.
  destruct (Hm hw s) as [e1 [E1 N1]].
  destruct (m hw s) as [a s' | s' | s' | s']; cbn [final] in E1;
    try (exists e1; split; assumption).
  destruct (Hf a hw s') as [e2 [E2 N2]].
  exists (e1 ++ e2). split.
  - rewrite E2, E1. now rewrite app_assoc.
  - rewrite existsb_app, N1, N2. reflexivity.
Qed.

Create HintDb store_free.
#[local] Hint Resolve store_free_ret store_free_trap store_free_out_of_fuel
  store_free_uninitialised store_free_pb_init store_free_XReboot
  store_free_KeQueryPerformanceCounter store_free_KeQueryPerformanceFrequency
  store_free_KeTickCount store_free_asm_rdtsc : store_free.
#[local] Hint Extern 1 (store_free (emit _)) =>
  (apply store_free_emit; reflexivity) : store_free.

Ltac store_free_step :=
  match goal with
  | |- store_free (bind _ _) => apply store_free_bind; [| intros]
  | |- store_free (if ?b then _ else _) => destruct b
  | |- store_free (let '(_, _) := ?p in _) => destruct p
  | |- _ => solve [auto with store_free]
  end.

Lemma store_free_divl_null (dividend divisor : Z) :
  store_free (divl dividend divisor None).
Proof. unfold divl, asm_divl. repeat store_free_step. Qed.

Lemma store_free_rdtsc : store_free rdtsc.
Proof. unfold rdtsc. repeat store_free_step. Qed.

Lemma store_free_sample (step perf_start perf_freq ticks_start tsc_start : Z) :
  store_free (sample step perf_start perf_freq ticks_start tsc_start).
Proof.
  pose proof store_free_divl_null. pose proof store_free_rdtsc.
  unfold sample, tsc_delta, tsc_to_ms, display, debugClearScreen, printf,
    XSleep.
  repeat store_free_step.
Qed.

Lemma store_free_for_loop (step end_ : Z) (body : Z -> M unit) :
  (forall x, store_free (body x)) ->
  forall (fuel : nat) (elapsed : Z),
    store_free (for_loop fuel step end_ body elapsed).
Proof.
  intros Hb. induction fuel as [| fuel IH]; intros elapsed; cbn [for_loop].
  - destruct (elapsed <? end_); auto with store_free.
  - destruct (elapsed <? end_); [| auto with store_free].
    apply store_free_bind; [apply Hb | intros _; apply IH].
Qed.

(** Everything after a successful [pb_init]. *)
Lemma store_free_main_with (step end_ : Z) (fuel : nat) :
  store_free (main_with step end_ fuel).
Proof.
  pose proof store_free_rdtsc.
  pose proof (fun pf ps ts cs =>
    store_free_for_loop step end_ (fun _ => sample step pf ps ts cs)
      (fun _ => store_free_sample step pf ps ts cs) fuel 0).
  unfold main_with, pb_show_debug_screen, pb_kill, XSleep.
  repeat store_free_step.
Qed.

Lemma main_run_baseline (step end_ : Z) (fuel : nat) (hw : Platform) :
  pb_init_result hw = 0 ->
  main_with step end_ fuel hw initial
  = (for_loop fuel step end_
       (fun _ => sample step (perf_counter hw 0) (perf_freq_of hw)
                   (tick_count hw 0) (tsc_at hw 0)) 0 ;;
     pb_kill ;;
     XReboot) hw (after_reads 1 (baseline_events hw)).
Proof.
  intros Hinit.
  unfold main_with, bind at 1 2, pb_init. rewrite Hinit. cbn [Z.eqb ret].
  unfold bind at 1 2 3 4 5.
  unfold pb_show_debug_screen, emit, KeQueryPerformanceCounter,
    KeQueryPerformanceFrequency, KeTickCount, rdtsc, bind at 1, asm_rdtsc, log.
  cbn [perf_reads tick_reads tsc_reads trace initial app ret].
  unfold baseline_events, tsc_at. rewrite Hinit.
  destruct (tsc_halves hw 0) as [hi lo]. reflexivity.
Qed.

Lemma main_trace_after_init (step end_ : Z) (fuel : nat) (hw : Platform) :
  pb_init_result hw = 0 ->
  exists evs,
    trace (final (main_with step end_ fuel hw initial))
    = baseline_events hw ++ evs.
Proof.
  intros Hinit. rewrite main_run_baseline by assumption.
  assert (Hrest : store_free
    (for_loop fuel step end_
       (fun _ => sample step (perf_counter hw 0) (perf_freq_of hw)
                   (tick_count hw 0) (tsc_at hw 0)) 0 ;;
     pb_kill ;; XReboot)).
  { apply store_free_bind.
    - apply store_free_for_loop. intros _. apply store_free_sample.
    - intros _. unfold pb_kill. repeat store_free_step. }
  destruct (Hrest hw (after_reads 1 (baseline_events hw))) as [evs [E _]].
  exists evs. exact E.
Qed.

(** ** The shape of a run *)

(** C10.  The one call of [divl], in [tsc_to_ms], passes a null remainder
    pointer; such a call never changes the trace; and no run of the
    program, however it ends, contains a store through the remainder
    pointer. *)
Theorem remainder_store_never_runs :
  forall (fuel : nat) (hw : Platform),
    (forall tsc, tsc_to_ms tsc = divl tsc 733333 None)
    /\ (forall d v s, trace (final (divl d v None hw s)) = trace s)
    /\ existsb is_store (trace (final (main fuel hw initial))) = false
    /\ forall p r, ~ In (EvStore p r) (trace (final (main fuel hw initial))).
Proof.
  intros fuel hw.
  assert (Hnone : existsb is_store (trace (final (main fuel hw initial))) = false).
  { destruct (store_free_main_with SAMPLE_STEP SAMPLE_END fuel hw initial)
      as [evs [E N]].
    unfold main. rewrite E. exact N. }
  split; [reflexivity | split; [| split; [exact Hnone |]]].
  - intros d v s. unfold divl, bind, uninitialised, asm_divl, trap.
    destruct (x86_div32 _ _ _); reflexivity.
  - intros p r Hin.
    assert (Hex : existsb is_store (trace (final (main fuel hw initial))) = true).
    { apply existsb_exists. exists (EvStore p r). split; [exact Hin | reflexivity]. }
    rewrite Hnone in Hex. discriminate.
Qed.

Lemma nominal_no_divide_error :
  forall i, (1 <= i <= 315)%nat -> no_divide_error nominal i.
Proof.
  assert (H : forallb (fun i => tsc_delta_at nominal i <? 2 ^ 32) (seq 1 315)
              = true) by (vm_compute; reflexivity).
  rewrite forallb_forall in H.
  intros i Hi. split.
  - vm_compute. discriminate.
  - apply Z.ltb_lt, H, in_seq. lia.
Qed.

Lemma clears_of_samples (step : Z) (hw : Platform) (ns : list nat) :
  List.length (filter is_clear (flat_map (sample_events step hw) ns))
  = List.length ns.
Proof.
  induction ns as [| n ns IH]; [reflexivity |].
  cbn [flat_map]. rewrite filter_app, length_app, IH.
  unfold sample_events, display_events.
  cbn [app filter is_clear List.length]. reflexivity.
Qed.

Lemma nth_map_seq (f : nat -> Z) :
  forall (m j k : nat),
    (k < m)%nat -> nth k (map f (seq j m)) 0 = f (j + k)%nat.
Proof.
  induction m as [| m IH]; intros j k Hk; [lia |].
  destruct k as [| k]; cbn [seq map nth].
  - f_equal. lia.
  - rewrite IH by lia. f_equal. lia.
Qed.

(** C5.  The loop counter starts at 0 and advances by the step: as long as
    the counter cannot wrap, the loop runs its body at 0, step, 2*step, ...,
    each value below the total duration, and stops at the first multiple of
    the step that reaches it.  With step 1000 and duration 5000 the body
    runs at 0, 1000, 2000, 3000, 4000 and the display is redrawn exactly 5
    times; with the program's constants it runs 315 times. *)
Theorem sampling_loop_counter :
  forall (step end_ : Z) (body : Z -> M unit) (fuel : nat)
         (hw : Platform) (s : State),
    0 < step -> 0 <= end_ -> end_ + step <= 2 ^ 32 ->
    (iterations step end_ <= fuel)%nat ->
    for_loop fuel step end_ body 0 hw s
      = iterate body (loop_counters step end_) hw s
    /\ List.length (loop_counters step end_) = iterations step end_
    /\ (forall k, (k < iterations step end_)%nat ->
          nth k (loop_counters step end_) 0 = Z.of_nat k * step
          /\ Z.of_nat k * step < end_)
    /\ end_ <= Z.of_nat (iterations step end_) * step
    /\ loop_counters 1000 5000 = [0; 1000; 2000; 3000; 4000]
    /\ (pb_init_result hw = 0 ->
        (forall i, (1 <= i <= 5)%nat -> no_divide_error hw i) ->
        exists st,
          main_with 1000 5000 5 hw initial = Rebooted st
          /\ List.length (filter is_clear (trace st)) = 5%nat)
    /\ iterations SAMPLE_STEP SAMPLE_END = 315%nat.
Proof.
  intros step end_ body fuel hw s Hs He Hw Hfuel.
  pose proof (iterations_spec step end_ Hs He) as [Hlo Hhi].
  split; [| split; [| split; [| split; [| split; [| split]]]]].
  - unfold loop_counters.
    apply (for_loop_iterate step end_ body Hs He Hw
             (iterations step end_) 0%nat fuel hw s); lia.
  - unfold loop_counters. now rewrite length_map, length_seq.
  - intros k Hk. split.
    + unfold loop_counters. now rewrite nth_map_seq by assumption.
    + nia.
  - exact Hhi.
  - reflexivity.
  - intros Hinit Hok.
    assert (E5 : iterations 1000 5000 = 5%nat) by reflexivity.
    eexists. split.
    + apply (main_run_completed 1000 5000 5 hw);
        try lia; try assumption; rewrite E5; lia.
    + cbn [trace after_reads]. rewrite !filter_app, !length_app.
      rewrite clears_of_samples, length_seq. rewrite E5. reflexivity.
  - reflexivity.
Qed.

Lemma sampling_loop_counter_witness :
  for_loop 5 1000 5000 (fun _ => XSleep 1) 0 nominal initial
    = iterate (fun _ => XSleep 1) (loop_counters 1000 5000) nominal initial
  /\ List.length (loop_counters 1000 5000) = iterations 1000 5000
  /\ (forall k, (k < iterations 1000 5000)%nat ->
        nth k (loop_counters 1000 5000) 0 = Z.of_nat k * 1000
        /\ Z.of_nat k * 1000 < 5000)
  /\ 5000 <= Z.of_nat (iterations 1000 5000) * 1000
  /\ loop_counters 1000 5000 = [0; 1000; 2000; 3000; 4000]
  /\ (pb_init_result nominal = 0 ->
      (forall i, (1 <= i <= 5)%nat -> no_divide_error nominal i) ->
      exists st,
        main_with 1000 5000 5 nominal initial = Rebooted st
        /\ List.length (filter is_clear (trace st)) = 5%nat)
  /\ iterations SAMPLE_STEP SAMPLE_END = 315%nat.
Proof.
  apply (sampling_loop_counter 1000 5000 (fun _ => XSleep 1) 5 nominal initial).
  - lia.
  - lia.
  - lia.
  - vm_compute. lia.
Defined.

(** ** The display *)

Lemma string_of_uint_not_minus (u : Decimal.uint) (rest : string) :
  NilZero.string_of_uint u <> String "-" rest.
Proof. destruct u; cbn; discriminate. Qed.

Lemma fmt_d_negative (d : Z) :
  2 ^ 31 <= d < 2 ^ 32 -> fmt_d d = ("-" ++ fmt_u (2 ^ 32 - d))%string.
Proof.
  intros Hd. unfold fmt_d, fmt_u, signed32.
  rewrite (wrap32_small d), (wrap32_small (2 ^ 32 - d)) by lia.
  destruct (Z.ltb_spec d (2 ^ 31)); [lia |].
  replace (d - 2 ^ 32) with (- (2 ^ 32 - d)) by lia.
  destruct (2 ^ 32 - d) eqn:E; try lia. reflexivity.
Qed.

(** C3 (code defect).  Every redraw clears the display and then prints
    exactly the three lines with the stated labels and an empty line, but
    the deltas, which are unsigned, go through [%d]: a delta below 2^31 is
    shown as its unsigned decimal, a delta of 2^31 or more as a negative
    number.  In an iteration whose tick reading is 3000000000 after a
    baseline of 0 the tick line reads -1294967296, not 3000000000. *)
Theorem display_prints_deltas_signed :
  (forall (pd td cd : Z) (hw : Platform) (s : State),
     display pd td cd hw s
     = Ret tt
         {| perf_reads := perf_reads s; tick_reads := tick_reads s;
            tsc_reads := tsc_reads s;
            trace := trace s ++
              [EvClearScreen;
               EvPrint ("Performance Counter: " ++ fmt_d pd
                        ++ " ms elapsed" ++ nl);
               EvPrint ("       Tick Counter: " ++ fmt_d td
                        ++ " ms elapsed" ++ nl);
               EvPrint (" Time Stamp Counter: " ++ fmt_d cd
                        ++ " ms elapsed" ++ nl);
               EvPrint nl] |})
  /\ (forall d : Z,
        (0 <= d < 2 ^ 31 -> fmt_d d = fmt_u d)
        /\ (2 ^ 31 <= d < 2 ^ 32 ->
            fmt_d d = ("-" ++ fmt_u (2 ^ 32 - d))%string
            /\ fmt_d d <> fmt_u d))
  /\ ticks_delta 3000000000 0 = 3000000000
  /\ sample SAMPLE_STEP (perf_counter tick_jumps 0) (perf_freq_of tick_jumps)
       (tick_count tick_jumps 0) (tsc_at tick_jumps 0) tick_jumps
       (after_reads 1 [])
     = Ret tt (after_reads 2
                 [EvPerfCounter 0; EvTickCount 3000000000; EvRdtsc 0 0;
                  EvClearScreen;
                  EvPrint ("Performance Counter: 0 ms elapsed" ++ nl);
                  EvPrint ("       Tick Counter: -1294967296 ms elapsed" ++ nl);
                  EvPrint (" Time Stamp Counter: 0 ms elapsed" ++ nl);
                  EvPrint nl;
                  EvSleep 1000])
  /\ skip_blanks ("       Tick Counter: -1294967296 ms elapsed" ++ nl)
     <> spec_line "Tick Counter" 3000000000
  /\ spec_line "Tick Counter" 3000000000
     = ("Tick Counter: 3000000000 ms elapsed" ++ nl)%string.
Proof.
  split; [| split; [| split; [| split; [| split]]]].
  - intros pd td cd hw s. rewrite display_run. unfold display_events.
    now rewrite line_perf, line_ticks, line_tsc.
  - intros d. split.
    + apply fmt_d_unsigned.
    + intros Hd. pose proof (fmt_d_negative d Hd) as E.
      split; [exact E |]. rewrite E. intros Heq. symmetry in Heq.
      revert Heq. unfold fmt_u. apply string_of_uint_not_minus.
  - reflexivity.
  - reflexivity.
  - vm_compute. discriminate.
  - reflexivity.
Qed.

(** * Further properties of the program *)

(** ** The division primitive outside and inside its contract *)

Lemma divl_outcome (d v : Z) (r : option ptr) (hw : Platform) (s : State) :
  0 <= d < 2 ^ 64 -> 0 <= v ->
  divl d v r hw s =
  if (v =? 0) || (2 ^ 32 * v <=? d) then DivideError s
  else Ret (d / v)
         match r with
         | Some p => log (EvStore p (indeterminate hw)) s
         | None => s
         end.
Proof.
  intros Hd Hv.
  unfold divl, bind, uninitialised, asm_divl, trap, x86_div32.
  rewrite halves_of_dividend by assumption.
  destruct (Z.eqb_spec v 0) as [E | E]; [reflexivity |].
  cbn [orb].
  pose proof (quotient_fits d v ltac:(lia) ltac:(lia)) as [Hfit Hfit'].
  destruct (Z.gtb_spec (d / v) 4294967295) as [Hgt | Hle];
    destruct (Z.leb_spec (2 ^ 32 * v) d) as [Hov | Hin]; cbn.
  - reflexivity.
  - specialize (Hfit Hin). lia.
  - assert (d < 2 ^ 32 * v) by (apply Hfit'; lia). lia.
  - destruct r; reflexivity.
Qed.

(** X1.  Inside its contract [divl] returns, for any remainder pointer, the
    one Q with Q*V <= D < (Q+1)*V, and Q fits in 32 bits; a null pointer
    leaves the state as it was and a non-null one adds a single store. *)
Theorem divl_quotient_in_contract :
  forall (d v : Z) (r : option ptr) (hw : Platform) (s : State),
    0 <= d < 2 ^ 64 -> 0 < v -> d < 2 ^ 32 * v ->
    exists q,
      divl d v r hw s
      = Ret q match r with
              | Some p => log (EvStore p (indeterminate hw)) s
              | None => s
              end
      /\ q * v <= d < (q + 1) * v
      /\ 0 <= q < 2 ^ 32.
Proof.
  intros d v r hw s Hd Hv Hc. exists (d / v).
  pose proof (quotient_fits d v Hv ltac:(lia)) as [Hfit _].
  split; [| split].
  - apply divl_run; auto.
  - pose proof (Z.div_mod d v ltac:(lia)).
    pose proof (Z.mod_pos_bound d v Hv). nia.
  - split; [apply Z.div_pos; lia | auto].
Qed.

Lemma divl_quotient_in_contract_witness :
  exists q,
    divl (2 ^ 33 + 5) 3 (Some 64) nominal initial
    = Ret q (log (EvStore 64 (indeterminate nominal)) initial)
    /\ q * 3 <= 2 ^ 33 + 5 < (q + 1) * 3
    /\ 0 <= q < 2 ^ 32.
Proof.
  apply (divl_quotient_in_contract (2 ^ 33 + 5) 3 (Some 64) nominal initial);
    lia.
Defined.

(** X2.  [divl] raises the divide error exactly when the divisor is zero or
    the dividend is at least 2^32 times the divisor; it then leaves the
    state untouched, so nothing is stored through the remainder pointer. *)
Theorem divl_traps_outside_contract :
  forall (d v : Z) (r : option ptr) (hw : Platform) (s : State),
    0 <= d < 2 ^ 64 -> 0 <= v < 2 ^ 32 ->
    (divl d v r hw s = DivideError s <-> v = 0 \/ 2 ^ 32 * v <= d).
Proof.
  intros d v r hw s Hd Hv.
  rewrite divl_outcome by lia.
  destruct (Z.eqb_spec v 0) as [E | E]; cbn [orb].
  - split; auto.
  - destruct (Z.leb_spec (2 ^ 32 * v) d) as [Hov | Hin].
    + split; auto.
    + split; [discriminate | lia].
Qed.

Lemma divl_traps_outside_contract_witness :
  divl (2 ^ 33) 2 (Some 64) nominal initial = DivideError initial
  <-> 2 = 0 \/ 2 ^ 32 * 2 <= 2 ^ 33.
Proof.
  apply (divl_traps_outside_contract (2 ^ 33) 2 (Some 64) nominal initial); lia.
Defined.

(** X3.  [tsc_to_ms] raises the divide error exactly for cycle counts of
    733333 * 2^32 and more (about 49.7 days of cycles); below that bound it
    returns a value that fits in 32 bits. *)
Theorem tsc_to_ms_trap_threshold :
  forall (t : Z) (hw : Platform) (s : State),
    0 <= t < 2 ^ 64 ->
    (tsc_to_ms t hw s = DivideError s <-> tsc_to_ms_limit <= t)
    /\ (t < tsc_to_ms_limit ->
        tsc_to_ms t hw s = Ret (t / 733333) s /\ 0 <= t / 733333 < 2 ^ 32).
Proof.
  intros t hw s Ht. unfold tsc_to_ms, tsc_to_ms_limit.
  rewrite divl_outcome by lia. cbn [Z.eqb orb].
  destruct (Z.leb_spec (2 ^ 32 * 733333) t) as [Hov | Hin].
  - split; [split; [lia | reflexivity] | lia].
  - split; [split; [discriminate | lia] |].
    intros _. split; [reflexivity |].
    split; [apply Z.div_pos; lia | apply Z.div_lt_upper_bound; lia].
Qed.

Lemma tsc_to_ms_trap_threshold_witness :
  (tsc_to_ms tsc_to_ms_limit nominal initial = DivideError initial
   <-> tsc_to_ms_limit <= tsc_to_ms_limit)
  /\ (tsc_to_ms_limit < tsc_to_ms_limit ->
      tsc_to_ms tsc_to_ms_limit nominal initial
      = Ret (tsc_to_ms_limit / 733333) initial
      /\ 0 <= tsc_to_ms_limit / 733333 < 2 ^ 32).
Proof.
  apply (tsc_to_ms_trap_threshold tsc_to_ms_limit nominal initial).
  vm_compute. split; [discriminate | reflexivity].
Defined.

(** ** Deltas across a wrap of the counters *)

Lemma wrap64_sub_wrap64 (a d : Z) : wrap64 (wrap64 (a + d) - a) = wrap64 d.
Proof.
  unfold wrap64. rewrite Zminus_mod_idemp_l. f_equal. lia.
Qed.

Lemma wrap32_sub_wrap64 (a b : Z) : wrap32 (wrap64 a - b) = wrap32 (a - b).
Proof.
  unfold wrap32, wrap64.
  rewrite Zminus_mod, Z.mod_mod_divide by (exists (2 ^ 32); reflexivity).
  now rewrite <- Zminus_mod.
Qed.

Lemma wrap32_sub_wrap32 (a b : Z) : wrap32 (wrap32 a - b) = wrap32 (a - b).
Proof. unfold wrap32. apply Zminus_mod_idemp_l. Qed.

(** X4.  When the time stamp counter reads less than its baseline, the
    unsigned difference is so large that the conversion overflows: for
    every shortfall of at most 2^64 - 733333 * 2^32 cycles the delta raises
    the divide error instead of producing a number. *)
Theorem tsc_delta_backwards_traps :
  forall (tsc_cur tsc_start : Z) (hw : Platform) (s : State),
    0 <= tsc_cur < tsc_start -> tsc_start < 2 ^ 64 ->
    tsc_start - tsc_cur <= 2 ^ 64 - tsc_to_ms_limit ->
    tsc_delta tsc_cur tsc_start hw s = DivideError s.
Proof.
  intros cur start hw s Hcur Hstart Hshort.
  unfold tsc_delta, tsc_to_ms, tsc_to_ms_limit in *.
  assert (E : wrap64 (cur - start) = cur - start + 2 ^ 64).
  { unfold wrap64.
    replace (cur - start) with (cur - start + 2 ^ 64 + (-1) * 2 ^ 64) at 1 by lia.
    rewrite Z.mod_add by lia. apply Z.mod_small. lia. }
  rewrite E, divl_outcome by lia. cbn [Z.eqb orb].
  destruct (Z.leb_spec (2 ^ 32 * 733333) (cur - start + 2 ^ 64)); [reflexivity | lia].
Qed.

Lemma tsc_delta_backwards_traps_witness :
  tsc_delta 0 1 nominal initial = DivideError initial.
Proof.
  apply (tsc_delta_backwards_traps 0 1 nominal initial).
  - lia.
  - lia.
  - vm_compute. discriminate.
Defined.

(** X5.  [tsc_to_ms] undoes the scaling by 733333 cycles per millisecond:
    t milliseconds' worth of cycles, plus any part of a further millisecond,
    convert back to t, for every t that fits in 32 bits. *)
Theorem tsc_to_ms_inverts_scaling :
  forall (t r : Z) (hw : Platform) (s : State),
    0 <= t < 2 ^ 32 -> 0 <= r < 733333 ->
    tsc_to_ms (733333 * t + r) hw s = Ret t s.
Proof.
  intros t r hw s Ht Hr.
  assert (Hq : (733333 * t + r) / 733333 = t).
  { symmetry. apply (Z.div_unique _ _ t r); lia. }
  unfold tsc_to_ms. rewrite divl_run by (rewrite ?Hq; lia).
  now rewrite Hq.
Qed.

Lemma tsc_to_ms_inverts_scaling_witness :
  tsc_to_ms (733333 * 4294967295 + 733332) nominal initial
  = Ret 4294967295 initial.
Proof.
  apply (tsc_to_ms_inverts_scaling 4294967295 733332 nominal initial); lia.
Defined.

(** X6.  The tick delta survives a wrap of the counter: if d < 2^32 ticks
    passed since the baseline, the delta is d whether the reading wrapped at
    64 bits or, as a 32-bit counter does, at 32 bits. *)
Theorem ticks_delta_survives_wrap :
  forall (ticks_start d : Z),
    0 <= d < 2 ^ 32 ->
    ticks_delta (wrap64 (ticks_start + d)) ticks_start = d
    /\ ticks_delta (wrap32 (ticks_start + d)) ticks_start = d.
Proof.
  intros start d Hd. unfold ticks_delta. rewrite !wrap32_wrap64. split.
  - rewrite wrap32_sub_wrap64.
    replace (start + d - start) with d by lia. now apply wrap32_small.
  - rewrite wrap32_sub_wrap32.
    replace (start + d - start) with d by lia. now apply wrap32_small.
Qed.

Lemma ticks_delta_survives_wrap_witness :
  ticks_delta (wrap64 (18446744073709551000 + 1000)) 18446744073709551000 = 1000
  /\ ticks_delta (wrap32 (18446744073709551000 + 1000)) 18446744073709551000
     = 1000.
Proof.
  apply (ticks_delta_survives_wrap 18446744073709551000 1000).
  lia.
Defined.

(** X7.  The performance-counter delta survives a wrap of the 64-bit
    counter: if d < 2^32 ticks passed since the baseline, the delta is d / f
    also when the current reading wrapped around. *)
Theorem perf_delta_survives_wrap :
  forall (perf_start d f : Z),
    0 <= d < 2 ^ 32 -> 0 < f ->
    perf_delta (wrap64 (perf_start + d)) perf_start f = Some (d / f).
Proof.
  intros start d f Hd Hf. unfold perf_delta, udiv32.
  rewrite wrap32_wrap64, wrap32_sub_wrap64.
  replace (start + d - start) with d by lia.
  rewrite wrap32_small by assumption.
  destruct (Z.eqb_spec f 0); [lia | reflexivity].
Qed.

Lemma perf_delta_survives_wrap_witness :
  perf_delta (wrap64 (18446744073709551000 + 6750000)) 18446744073709551000 3375
  = Some (6750000 / 3375).
Proof.
  apply (perf_delta_survives_wrap 18446744073709551000 6750000 3375); lia.
Defined.

(** X8.  The time-stamp delta survives a wrap of the 64-bit counter: if d
    cycles passed since the baseline, d below 733333 * 2^32, the delta is
    d / 733333 also when the current reading wrapped around. *)
Theorem tsc_delta_survives_wrap :
  forall (tsc_start d : Z) (hw : Platform) (s : State),
    0 <= d < tsc_to_ms_limit ->
    tsc_delta (wrap64 (tsc_start + d)) tsc_start hw s = Ret (d / 733333) s.
Proof.
  intros start d hw s Hd. unfold tsc_to_ms_limit in Hd.
  unfold tsc_delta, tsc_to_ms.
  rewrite wrap64_sub_wrap64, wrap64_small by lia.
  apply divl_run; try lia.
  apply Z.div_lt_upper_bound; lia.
Qed.

Lemma tsc_delta_survives_wrap_witness :
  tsc_delta (wrap64 (18446744073709551000 + 1466666000)) 18446744073709551000
    nominal initial
  = Ret (1466666000 / 733333) initial.
Proof.
  apply (tsc_delta_survives_wrap 18446744073709551000 1466666000 nominal initial).
  vm_compute. split; [discriminate | reflexivity].
Defined.

(** X9.  With at least 2 ticks per millisecond the performance-counter
    delta is below 2^31, so its line always shows the delta as an unsigned
    decimal number. *)
Theorem perf_line_is_unsigned :
  forall (perf_cur perf_start perf_freq : Z),
    2 <= perf_freq ->
    exists pd,
      perf_delta perf_cur perf_start perf_freq = Some pd
      /\ 0 <= pd < 2 ^ 31
      /\ vsprintf ("Performance Counter: %d ms elapsed" ++ nl) [pd]
         = spec_line "Performance Counter" pd.
Proof.
  intros cur start f Hf.
  exists (wrap32 (wrap64 (cur - start)) / f).
  pose proof (wrap32_range (wrap64 (cur - start))) as Hr.
  assert (Hb : 0 <= wrap32 (wrap64 (cur - start)) / f < 2 ^ 31).
  { split; [apply Z.div_pos; lia |].
    apply Z.div_lt_upper_bound; lia. }
  split; [| split; [exact Hb |]].
  - unfold perf_delta, udiv32. destruct (Z.eqb_spec f 0); [lia | reflexivity].
  - rewrite line_perf, fmt_d_unsigned by exact Hb. reflexivity.
Qed.

Lemma perf_line_is_unsigned_witness :
  exists pd,
    perf_delta 0 1 3375 = Some pd
    /\ 0 <= pd < 2 ^ 31
    /\ vsprintf ("Performance Counter: %d ms elapsed" ++ nl) [pd]
       = spec_line "Performance Counter" pd.
Proof.
  apply (perf_line_is_unsigned 0 1 3375). lia.
Defined.

(** X10.  When the tick counter reads k ticks less than its baseline, with
    0 < k <= 2^31, the delta is 2^32 - k and the tick line shows it as the
    negative number -k. *)
Theorem ticks_line_backwards :
  forall (ticks_cur k : Z),
    0 < k <= 2 ^ 31 ->
    ticks_delta ticks_cur (ticks_cur + k) = 2 ^ 32 - k
    /\ vsprintf ("       Tick Counter: %d ms elapsed" ++ nl)
         [ticks_delta ticks_cur (ticks_cur + k)]
       = ("       Tick Counter: -" ++ fmt_u k ++ " ms elapsed" ++ nl)%string.
Proof.
  intros cur k Hk.
  assert (E : ticks_delta cur (cur + k) = 2 ^ 32 - k).
  { unfold ticks_delta. rewrite wrap32_wrap64. unfold wrap32.
    replace (cur - (cur + k)) with (2 ^ 32 - k + (-1) * 2 ^ 32) by lia.
    rewrite Z.mod_add by lia. apply Z.mod_small. lia. }
  split; [exact E |].
  rewrite E, line_ticks.
  assert (F : fmt_d (2 ^ 32 - k) = ("-" ++ fmt_u k)%string).
  { unfold fmt_d, fmt_u, signed32.
    rewrite (wrap32_small (2 ^ 32 - k)), (wrap32_small k) by lia.
    destruct (Z.ltb_spec (2 ^ 32 - k) (2 ^ 31)); [lia |].
    replace (2 ^ 32 - k - 2 ^ 32) with (- k) by lia.
    destruct k; try lia. reflexivity. }
  rewrite F. reflexivity.
Qed.

Lemma ticks_line_backwards_witness :
  ticks_delta 1200 (1200 + 3800) = 2 ^ 32 - 3800
  /\ vsprintf ("       Tick Counter: %d ms elapsed" ++ nl)
       [ticks_delta 1200 (1200 + 3800)]
     = ("       Tick Counter: -" ++ fmt_u 3800 ++ " ms elapsed" ++ nl)%string.
Proof.
  apply (ticks_line_backwards 1200 3800). lia.
Defined.

(** X11.  Splitting a 64-bit value into the two halves [divl] hands to the
    divide instruction and joining them the way [rdtsc] joins the halves of
    the counter gives the value back. *)
Theorem tsc_value_of_halves :
  forall (d : Z),
    0 <= d < 2 ^ 64 ->
    tsc_value (wrap32 (Z.shiftr d 32)) (wrap32 d) = d.
Proof.
  intros d Hd.
  rewrite tsc_value_eq by apply wrap32_range.
  now apply halves_of_dividend.
Qed.

Lemma tsc_value_of_halves_witness :
  tsc_value (wrap32 (Z.shiftr (2 ^ 64 - 1) 32)) (wrap32 (2 ^ 64 - 1))
  = 2 ^ 64 - 1.
Proof.
  apply (tsc_value_of_halves (2 ^ 64 - 1)). lia.
Defined.

(** X12.  Clocks that advance at the rates the program assumes agree: t
    milliseconds after the baseline, with 3375 t performance ticks, t kernel
    ticks and 733333 t cycles elapsed, all three deltas are t, for every t
    whose performance ticks fit in 32 bits. *)
Theorem nominal_rates_agree :
  forall (t perf_start ticks_start tsc_start : Z) (hw : Platform) (s : State),
    0 <= t -> 3375 * t < 2 ^ 32 ->
    perf_delta (wrap64 (perf_start + 3375 * t)) perf_start 3375 = Some t
    /\ ticks_delta (wrap64 (ticks_start + t)) ticks_start = t
    /\ tsc_delta (wrap64 (tsc_start + 733333 * t)) tsc_start hw s = Ret t s.
Proof.
  intros t ps ts cs hw s Ht Hfit. split; [| split].
  - unfold perf_delta, udiv32.
    rewrite wrap32_wrap64, wrap32_sub_wrap64.
    replace (ps + 3375 * t - ps) with (3375 * t) by lia.
    rewrite wrap32_small by lia. cbn [Z.eqb].
    now rewrite Z.mul_comm, Z.div_mul by lia.
  - unfold ticks_delta. rewrite wrap32_wrap64, wrap32_sub_wrap64.
    replace (ts + t - ts) with t by lia. apply wrap32_small. lia.
  - unfold tsc_delta, tsc_to_ms.
    rewrite wrap64_sub_wrap64, wrap64_small by lia.
    assert (Hq : 733333 * t / 733333 = t)
      by (now rewrite Z.mul_comm, Z.div_mul by lia).
    rewrite divl_run by (rewrite ?Hq; lia). now rewrite Hq.
Qed.

Lemma nominal_rates_agree_witness :
  perf_delta (wrap64 (0 + 3375 * 2000)) 0 3375 = Some 2000
  /\ ticks_delta (wrap64 (0 + 2000)) 0 = 2000
  /\ tsc_delta (wrap64 (0 + 733333 * 2000)) 0 nominal initial
     = Ret 2000 initial.
Proof.
  apply (nominal_rates_agree 2000 0 0 0 nominal initial); lia.
Defined.

(** ** Runs that end in a divide error *)

Lemma tsc_overflow_dividend (x : Z) :
  0 <= x -> 2 ^ 32 <= x / 733333 -> 2 ^ 32 * 733333 <= x.
Proof.
  intros Hx Hq.
  pose proof (Z.div_mod x 733333 ltac:(lia)).
  pose proof (Z.mod_pos_bound x 733333 ltac:(lia)). lia.
Qed.

Lemma sample_run_trap (step : Z) (hw : Platform) (n : nat) (tr : list event) :
  perf_freq_of hw = 0 \/ 2 ^ 32 <= tsc_delta_at hw n ->
  sample step (perf_counter hw 0) (perf_freq_of hw) (tick_count hw 0)
    (tsc_at hw 0) hw (after_reads n tr)
  = DivideError (after_reads (S n) (tr ++ sample_reads hw n)).
Proof.
  intros Hbad.
  unfold sample, bind at 1 2 3.
  unfold KeQueryPerformanceCounter, KeTickCount, rdtsc, bind at 1, asm_rdtsc.
  cbn [perf_reads tick_reads tsc_reads trace after_reads ret].
  destruct (tsc_halves hw n) as [hi lo] eqn:Eh.
  assert (Et : tsc_value hi lo = tsc_at hw n)
    by (unfold tsc_at; now rewrite Eh).
  assert (Etr : ((tr ++ [EvPerfCounter (perf_counter hw n)])
                 ++ [EvTickCount (tick_count hw n)]) ++ [EvRdtsc hi lo]
                = tr ++ sample_reads hw n).
  { unfold sample_reads. rewrite Eh. cbn [fst snd].
    rewrite <- !app_assoc. reflexivity. }
  unfold ret. cbn beta iota. rewrite Et, Etr.
  unfold bind at 1, trap, perf_delta, udiv32.
  destruct (Z.eqb_spec (perf_freq_of hw) 0) as [E | E]; [reflexivity |].
  destruct Hbad as [Hz | Hov]; [contradiction |].
  unfold bind at 1, tsc_delta, tsc_to_ms.
  pose proof (wrap64_range (tsc_at hw n - tsc_at hw 0)) as Hr.
  rewrite divl_outcome by lia. cbn [Z.eqb orb].
  destruct (Z.leb_spec (2 ^ 32 * 733333) (wrap64 (tsc_at hw n - tsc_at hw 0)))
    as [_ | Hin]; [reflexivity |].
  apply tsc_overflow_dividend in Hov; [lia | apply Hr].
Qed.

Lemma iterate_app (body : Z -> M unit) (xs ys : list Z)
  (hw : Platform) (s : State) :
  iterate body (xs ++ ys) hw s
  = (iterate body xs ;; iterate body ys) hw s.
Proof.
  revert s. induction xs as [| x xs IH]; intros s; [reflexivity |].
  cbn [app iterate]. unfold bind in *.
  destruct (body x hw s); try reflexivity. apply IH.
Qed.

Lemma main_run_trapped (step end_ : Z) (fuel k : nat) (hw : Platform) :
  0 < step -> 0 <= end_ -> end_ + step <= 2 ^ 32 ->
  pb_init_result hw = 0 ->
  (iterations step end_ <= fuel)%nat ->
  (k < iterations step end_)%nat ->
  (forall i, (1 <= i <= k)%nat -> no_divide_error hw i) ->
  perf_freq_of hw = 0 \/ 2 ^ 32 <= tsc_delta_at hw (S k) ->
  main_with step end_ fuel hw initial
  = DivideError (after_reads (S (S k))
                   (baseline_events hw
                    ++ flat_map (sample_events step hw) (seq 1 k)
                    ++ sample_reads hw (S k))).
Proof.
  intros Hs He Hw Hinit Hfuel Hk Hok Hbad.
  rewrite main_run_baseline by assumption. unfold bind at 1.
  pose proof (for_loop_iterate step end_
    (fun _ => sample step (perf_counter hw 0) (perf_freq_of hw)
                (tick_count hw 0) (tsc_at hw 0))
    Hs He Hw (iterations step end_) 0%nat fuel hw) as Hloop.
  cbn [Z.of_nat Z.mul] in Hloop. rewrite Hloop by lia.
  replace (iterations step end_) with (k + S (iterations step end_ - S k))%nat
    at 1 by lia.
  rewrite seq_app, map_app, iterate_app. unfold bind at 1.
  pose proof (iterate_sample_run step hw
    (map (fun j => Z.of_nat j * step) (seq 0 k)) 1 (baseline_events hw)) as Hrun.
  rewrite length_map, length_seq in Hrun.
  rewrite Hrun by (intros i Hi; apply Hok; lia).
  cbn [seq map iterate]. unfold bind at 1.
  replace (1 + k)%nat with (S k) by lia.
  rewrite sample_run_trap by assumption.
  now rewrite <- app_assoc.
Qed.

(** Up to any bound, either every sample divides without error or there is
    a first one that does not. *)
Lemma first_trapping_sample (hw : Platform) (n : nat) :
  (forall i, (1 <= i <= n)%nat -> no_divide_error hw i)
  \/ exists k, (k < n)%nat
       /\ (forall i, (1 <= i <= k)%nat -> no_divide_error hw i)
       /\ (perf_freq_of hw = 0 \/ 2 ^ 32 <= tsc_delta_at hw (S k)).
Proof.
  induction n as [| n [Hall | [k [Hk [Hok Hbad]]]]].
  - left. intros i Hi. lia.
  - destruct (Z.eq_dec (perf_freq_of hw) 0) as [Hz | Hnz].
    + right. exists n.
      split; [lia | split; [exact Hall | left; exact Hz]].
    + destruct (Z.lt_ge_cases (tsc_delta_at hw (S n)) (2 ^ 32)) as [Hlt | Hge].
      * left. intros i Hi.
        destruct (Nat.eq_dec i (S n)) as [-> | Hne];
          [split; assumption | apply Hall; lia].
      * right. exists n.
        split; [lia | split; [exact Hall | right; exact Hge]].
  - right. exists k.
    split; [lia | split; [exact Hok | exact Hbad]].
Qed.

Lemma samples_start_with_reads (step : Z) (hw : Platform) (k : nat)
  (rest : list event) :
  exists evs,
    flat_map (sample_events step hw) (seq 1 (S k)) ++ rest
    = sample_reads hw 1 ++ evs.
Proof.
  cbn [seq flat_map]. unfold sample_events at 1, sample_reads.
  rewrite <- !app_assoc. eexists. reflexivity.
Qed.

(** C8 as stated fails.  On a console that reports 999 performance ticks
    per second the display initialises, yet the ticks-per-millisecond
    divisor is 0 and the first sample divides by zero: the run ends in the
    divide error after the first three reads, nothing is drawn, and the
    console is not restarted. *)
Lemma successful_init_may_not_complete :
  pb_init_result slow_timer = 0
  /\ main 315 slow_timer initial
     = DivideError (after_reads 2
                      (baseline_events slow_timer ++ sample_reads slow_timer 1))
  /\ existsb is_clear (trace (final (main 315 slow_timer initial))) = false
  /\ main 315 slow_timer initial
     <> Rebooted (after_reads 316
                    (baseline_events slow_timer
                     ++ flat_map (sample_events SAMPLE_STEP slow_timer)
                          (seq 1 315)
                     ++ [EvPbKill; EvReboot]))
  /\ forall s, main 315 slow_timer initial <> Rebooted s.
Proof.
  assert (E : main 315 slow_timer initial
              = DivideError (after_reads 2
                  (baseline_events slow_timer ++ sample_reads slow_timer 1)))
    by (vm_compute; reflexivity).
  split; [reflexivity | split; [exact E |]].
  rewrite E. split; [reflexivity | split; [discriminate |]].
  intros s. discriminate.
Qed.

(** C8 (amended).  When [pb_init] reports failure the run is: pause 2000 ms,
    restart; no clock is read and the loop is not entered.  When it reports
    success the baseline is captured and the loop is entered; the run goes
    through all 315 samples to the teardown and the restart provided no
    division raises the divide error, and otherwise stops in the divide
    error at the first sample whose division does.  The pause-and-restart
    run occurs exactly when [pb_init] failed. *)
Theorem display_init_failure_path :
  forall (fuel : nat) (hw : Platform),
    (315 <= fuel)%nat ->
    (pb_init_result hw <> 0 ->
       main fuel hw initial
       = Rebooted (after_reads 0
                     [EvPbInit (pb_init_result hw); EvSleep 2000; EvReboot])
       /\ existsb is_read (trace (final (main fuel hw initial))) = false
       /\ existsb is_clear (trace (final (main fuel hw initial))) = false)
    /\ (pb_init_result hw = 0 ->
          (exists evs,
             trace (final (main fuel hw initial))
             = baseline_events hw ++ sample_reads hw 1 ++ evs)
          /\ ((forall i, (1 <= i <= 315)%nat -> no_divide_error hw i) ->
              main fuel hw initial
              = Rebooted (after_reads 316
                            (baseline_events hw
                             ++ flat_map (sample_events SAMPLE_STEP hw)
                                  (seq 1 315)
                             ++ [EvPbKill; EvReboot])))
          /\ (forall k, (k < 315)%nat ->
              (forall i, (1 <= i <= k)%nat -> no_divide_error hw i) ->
              perf_freq_of hw = 0 \/ 2 ^ 32 <= tsc_delta_at hw (S k) ->
              main fuel hw initial
              = DivideError (after_reads (S (S k))
                               (baseline_events hw
                                ++ flat_map (sample_events SAMPLE_STEP hw)
                                     (seq 1 k)
                                ++ sample_reads hw (S k)))))
    /\ (trace (final (main fuel hw initial))
          = [EvPbInit (pb_init_result hw); EvSleep 2000; EvReboot]
        <-> pb_init_result hw <> 0).
Proof.
  intros fuel hw Hfuel.
  assert (Hfail : pb_init_result hw <> 0 ->
            main fuel hw initial
            = Rebooted (after_reads 0
                [EvPbInit (pb_init_result hw); EvSleep 2000; EvReboot]))
    by apply main_run_failed_init.
  assert (Hfull : pb_init_result hw = 0 ->
            (forall i, (1 <= i <= 315)%nat -> no_divide_error hw i) ->
            main fuel hw initial
            = Rebooted (after_reads 316
                          (baseline_events hw
                           ++ flat_map (sample_events SAMPLE_STEP hw) (seq 1 315)
                           ++ [EvPbKill; EvReboot]))).
  { intros Hinit Hok.
    apply (main_run_completed SAMPLE_STEP SAMPLE_END fuel hw);
      first [ assumption | unfold SAMPLE_STEP, SAMPLE_END; lia ]. }
  assert (Htrap : pb_init_result hw = 0 ->
            forall k, (k < 315)%nat ->
            (forall i, (1 <= i <= k)%nat -> no_divide_error hw i) ->
            perf_freq_of hw = 0 \/ 2 ^ 32 <= tsc_delta_at hw (S k) ->
            main fuel hw initial
            = DivideError (after_reads (S (S k))
                             (baseline_events hw
                              ++ flat_map (sample_events SAMPLE_STEP hw) (seq 1 k)
                              ++ sample_reads hw (S k)))).
  { intros Hinit k Hk Hok Hbad.
    apply (main_run_trapped SAMPLE_STEP SAMPLE_END fuel k hw);
      first [ assumption
            | unfold SAMPLE_STEP, SAMPLE_END; lia
            | change (iterations SAMPLE_STEP SAMPLE_END) with 315%nat; lia ]. }
  split; [| split].
  - intros Hinit. rewrite (Hfail Hinit). repeat split.
  - intros Hinit. split; [| split; [now apply Hfull | now apply Htrap]].
    destruct (first_trapping_sample hw 315) as [Hall | [k [Hk [Hok Hbad]]]].
    + rewrite (Hfull Hinit Hall). cbn [final trace after_reads].
      destruct (samples_start_with_reads SAMPLE_STEP hw 314
                  [EvPbKill; EvReboot]) as [evs E].
      exists evs. now rewrite E.
    + rewrite (Htrap Hinit k Hk Hok Hbad). cbn [final trace after_reads].
      destruct k as [| k].
      * exists []. cbn [seq flat_map app]. now rewrite app_nil_r.
      * destruct (samples_start_with_reads SAMPLE_STEP hw k
                    (sample_reads hw (S (S k)))) as [evs E].
        exists evs. now rewrite E.
  - split.
    + intros Htr Hinit.
      destruct (main_trace_after_init SAMPLE_STEP SAMPLE_END fuel hw Hinit)
        as [evs E].
      unfold main in Htr. rewrite Htr in E. unfold baseline_events in E.
      cbn in E. discriminate.
    + intros Hinit. rewrite (Hfail Hinit). reflexivity.
Qed.

Lemma display_init_failure_path_witness :
  (main 315 broken_display initial
   = Rebooted (after_reads 0 [EvPbInit 1; EvSleep 2000; EvReboot])
   /\ existsb is_read (trace (final (main 315 broken_display initial))) = false
   /\ existsb is_clear (trace (final (main 315 broken_display initial))) = false)
  /\ main 315 nominal initial
     = Rebooted (after_reads 316
                   (baseline_events nominal
                    ++ flat_map (sample_events SAMPLE_STEP nominal) (seq 1 315)
                    ++ [EvPbKill; EvReboot]))
  /\ main 315 slow_timer initial
     = DivideError (after_reads 2
                      (baseline_events slow_timer
                       ++ flat_map (sample_events SAMPLE_STEP slow_timer)
                            (seq 1 0)
                       ++ sample_reads slow_timer 1)).
Proof.
  split; [| split].
  - apply (display_init_failure_path 315 broken_display); [lia |].
    cbn. discriminate.
  - apply (display_init_failure_path 315 nominal); [lia | reflexivity |].
    exact nominal_no_divide_error.
  - apply (display_init_failure_path 315 slow_timer 
             ltac:(lia)); [reflexivity | lia | intros i Hi; lia |].
    left. reflexivity.
Defined.

(** X13.  A run in which the first k samples divide without error and the
    next one does not ends in the divide error right after the three reads
    of that sample: the trace is the baseline capture, k complete samples
    and those reads; the display is not torn down and the console is not
    restarted. *)
Theorem main_stops_at_first_divide_error :
  forall (fuel k : nat) (hw : Platform),
    (315 <= fuel)%nat -> (k < 315)%nat ->
    pb_init_result hw = 0 ->
    (forall i, (1 <= i <= k)%nat -> no_divide_error hw i) ->
    perf_freq_of hw = 0 \/ 2 ^ 32 <= tsc_delta_at hw (S k) ->
    main fuel hw initial
    = DivideError (after_reads (S (S k))
                     (baseline_events hw
                      ++ flat_map (sample_events SAMPLE_STEP hw) (seq 1 k)
                      ++ sample_reads hw (S k))).
Proof.
  intros fuel k hw Hfuel Hk Hinit Hok Hbad.
  apply (main_run_trapped SAMPLE_STEP SAMPLE_END fuel k hw);
    try (unfold SAMPLE_STEP, SAMPLE_END; lia); assumption.
Qed.

Lemma main_stops_at_first_divide_error_witness :
  main 315 tsc_rewinds initial
  = DivideError (after_reads 4
                   (baseline_events tsc_rewinds
                    ++ flat_map (sample_events SAMPLE_STEP tsc_rewinds) (seq 1 2)
                    ++ sample_reads tsc_rewinds 3)).
Proof.
  apply (main_stops_at_first_divide_error 315 2 tsc_rewinds).
  - lia.
  - lia.
  - reflexivity.
  - intros i Hi.
    assert (Hc : i = 1%nat \/ i = 2%nat) by lia.
    destruct Hc as [-> | ->]; split;
      (vm_compute; discriminate) || (vm_compute; reflexivity).
  - right. vm_compute. discriminate.
Defined.

(** X14.  When the low 32 bits of the reported performance frequency are
    below 1000, the ticks-per-millisecond divisor is 0 and the first sample
    divides by zero: the run ends in the divide error after the baseline
    capture and the first three reads, and nothing is ever displayed. *)
Theorem main_zero_frequency_traps :
  forall (fuel : nat) (hw : Platform),
    (315 <= fuel)%nat ->
    pb_init_result hw = 0 ->
    wrap32 (perf_frequency hw) < 1000 ->
    main fuel hw initial
    = DivideError (after_reads 2 (baseline_events hw ++ sample_reads hw 1))
    /\ existsb is_clear (trace (final (main fuel hw initial))) = false.
Proof.
  intros fuel hw Hfuel Hinit Hlow.
  assert (Hz : perf_freq_of hw = 0).
  { unfold perf_freq_of. apply Z.div_small.
    pose proof (wrap32_range (perf_frequency hw)). lia. }
  assert (E : main fuel hw initial
              = DivideError (after_reads 2
                               (baseline_events hw ++ sample_reads hw 1))).
  { apply (main_run_trapped SAMPLE_STEP SAMPLE_END fuel 0 hw);
      first [ assumption
            | now left
            | unfold SAMPLE_STEP, SAMPLE_END; lia
            | change (iterations SAMPLE_STEP SAMPLE_END) with 315%nat; lia
            | intros i Hi; lia ]. }
  split; [exact E |]. rewrite E. reflexivity.
Qed.

Lemma main_zero_frequency_traps_witness :
  main 315 slow_timer initial
  = DivideError (after_reads 2
                   (baseline_events slow_timer ++ sample_reads slow_timer 1))
  /\ existsb is_clear (trace (final (main 315 slow_timer initial))) = false.
Proof.
  apply (main_zero_frequency_traps 315 slow_timer).
  - lia.
  - reflexivity.
  - vm_compute. reflexivity.
Defined.

(** X15.  Every run ends, within the 315 samples, in the restart of the
    console or in a divide error, and never returns from [main]; it ends in
    the divide error exactly when the display initialised and one of the 315
    samples divides by zero or overflows the cycle conversion. *)
Theorem main_ends_in_restart_or_divide_error :
  forall (fuel : nat) (hw : Platform),
    (315 <= fuel)%nat ->
    ((exists s, main fuel hw initial = Rebooted s)
     \/ (exists s, main fuel hw initial = DivideError s))
    /\ ((exists s, main fuel hw initial = DivideError s)
        <-> pb_init_result hw = 0
            /\ exists i, (1 <= i <= 315)%nat
                 /\ (perf_freq_of hw = 0 \/ 2 ^ 32 <= tsc_delta_at hw i)).
Proof.
  intros fuel hw Hfuel.
  assert (Hcompleted :
    pb_init_result hw = 0 ->
    (forall i, (1 <= i <= 315)%nat -> no_divide_error hw i) ->
    exists s, main fuel hw initial = Rebooted s).
  { intros Hinit Hok. eexists.
    apply (main_run_completed SAMPLE_STEP SAMPLE_END fuel hw);
      try (unfold SAMPLE_STEP, SAMPLE_END; lia); assumption. }
  assert (Htrapped :
    pb_init_result hw = 0 ->
    forall k, (k < 315)%nat ->
    (forall i, (1 <= i <= k)%nat -> no_divide_error hw i) ->
    perf_freq_of hw = 0 \/ 2 ^ 32 <= tsc_delta_at hw (S k) ->
    exists s, main fuel hw initial = DivideError s).
  { intros Hinit k Hk Hok Hbad. eexists.
    apply (main_run_trapped SAMPLE_STEP SAMPLE_END fuel k hw);
      first [ assumption
            | unfold SAMPLE_STEP, SAMPLE_END; lia
            | change (iterations SAMPLE_STEP SAMPLE_END) with 315%nat; lia ]. }
  destruct (Z.eq_dec (pb_init_result hw) 0) as [Hinit | Hfail].
  - destruct (first_trapping_sample hw 315) as [Hall | [k [Hk [Hok Hbad]]]].
    + destruct (Hcompleted Hinit Hall) as [s E]. split.
      * left. now exists s.
      * split.
        -- intros [s' E']. rewrite E in E'. discriminate.
        -- intros [_ [i [Hi Hbad]]]. destruct (Hall i Hi) as [Hnz Hlt].
           destruct Hbad; [contradiction | lia].
    + destruct (Htrapped Hinit k Hk Hok Hbad) as [s E]. split.
      * right. now exists s.
      * split.
        -- intros _. split; [exact Hinit |]. exists (S k). split; [lia | exact Hbad].
        -- intros _. now exists s.
  - pose proof (main_run_failed_init SAMPLE_STEP SAMPLE_END fuel hw Hfail) as E.
    fold (main fuel) in E. split.
    + left. eexists. exact E.
    + split.
      * intros [s' E']. rewrite E in E'. discriminate.
      * intros [Hinit _]. contradiction.
Qed.

Lemma main_ends_in_restart_or_divide_error_witness :
  ((exists s, main 315 nominal initial = Rebooted s)
   \/ (exists s, main 315 nominal initial = DivideError s))
  /\ ((exists s, main 315 nominal initial = DivideError s)
      <-> pb_init_result nominal = 0
          /\ exists i, (1 <= i <= 315)%nat
               /\ (perf_freq_of nominal = 0
                   \/ 2 ^ 32 <= tsc_delta_at nominal i)).
Proof.
  apply (main_ends_in_restart_or_divide_error 315 nominal). lia.
Defined.

(** ** Time spent asleep *)

Lemma slept_app (a b : list event) : slept (a ++ b) = slept a + slept b.
Proof.
  induction a as [| e a IH]; [reflexivity |].
  destruct e; cbn [app slept]; rewrite IH; lia.
Qed.

Lemma slept_samples (step : Z) (hw : Platform) (ns : list nat) :
  slept (flat_map (sample_events step hw) ns)
  = step * Z.of_nat (List.length ns).
Proof.
  induction ns as [| n ns IH]; [cbn; lia |].
  cbn [flat_map]. rewrite slept_app, IH.
  unfold sample_events, display_events. cbn [app slept List.length]. lia.
Qed.

(** X16.  A run that completes sleeps 315 times 1000 ms, which is the whole
    of [SAMPLE_END]; a run whose display fails to initialise sleeps 2000 ms
    and no more. *)
Theorem main_total_sleep :
  forall (fuel : nat) (hw : Platform),
    (315 <= fuel)%nat ->
    (pb_init_result hw <> 0 ->
       slept (trace (final (main fuel hw initial))) = 2000)
    /\ (pb_init_result hw = 0 ->
        (forall i, (1 <= i <= 315)%nat -> no_divide_error hw i) ->
        slept (trace (final (main fuel hw initial))) = SAMPLE_END).
Proof.
  intros fuel hw Hfuel. split.
  - intros Hfail. unfold main.
    rewrite main_run_failed_init by assumption. reflexivity.
  - intros Hinit Hok. unfold main.
    rewrite (main_run_completed SAMPLE_STEP SAMPLE_END fuel hw)
      by (try (unfold SAMPLE_STEP, SAMPLE_END; lia); assumption).
    cbn [final trace after_reads].
    rewrite !slept_app, slept_samples, length_seq. reflexivity.
Qed.

Lemma main_total_sleep_witness :
  slept (trace (final (main 315 broken_display initial))) = 2000
  /\ slept (trace (final (main 315 nominal initial))) = SAMPLE_END.
Proof.
  split.
  - apply (main_total_sleep 315 broken_display); [lia |].
    cbn. discriminate.
  - apply (main_total_sleep 315 nominal); [lia | reflexivity |].
    exact nominal_no_divide_error.
Defined.

(** ** Deltas of readings that do not run backwards *)

Lemma wrap32_diff (a b : Z) :
  0 <= a - b < 2 ^ 32 -> wrap32 (wrap64 (a - b)) = a - b.
Proof. intros H. rewrite wrap32_wrap64. now apply wrap32_small. Qed.

(** X17.  With a nonzero divisor, and while the readings do not decrease
    and stay within 2^32 performance ticks, 2^32 kernel ticks and
    733333 * 2^32 cycles of the baseline, the three deltas the program
    computes are produced without a divide error and do not decrease from an
    earlier sample to a later one. *)
Theorem deltas_monotone :
  forall (perf_start perf_i perf_j perf_freq : Z)
         (ticks_start ticks_i ticks_j : Z)
         (tsc_start tsc_i tsc_j : Z) (hw : Platform) (s : State),
    0 < perf_freq ->
    perf_start <= perf_i <= perf_j -> perf_j < perf_start + 2 ^ 32 ->
    ticks_start <= ticks_i <= ticks_j -> ticks_j < ticks_start + 2 ^ 32 ->
    tsc_start <= tsc_i <= tsc_j -> tsc_j < tsc_start + tsc_to_ms_limit ->
    exists pi pj ci cj,
      perf_delta perf_i perf_start perf_freq = Some pi
      /\ perf_delta perf_j perf_start perf_freq = Some pj
      /\ pi <= pj
      /\ ticks_delta ticks_i ticks_start <= ticks_delta ticks_j ticks_start
      /\ tsc_delta tsc_i tsc_start hw s = Ret ci s
      /\ tsc_delta tsc_j tsc_start hw s = Ret cj s
      /\ ci <= cj.
Proof.
  intros ps p_i p_j f ts t_i t_j cs c_i c_j hw s
    Hf Hp Hp' Ht Ht' Hc Hc'.
  unfold tsc_to_ms_limit in Hc'.
  exists ((p_i - ps) / f), ((p_j - ps) / f),
         ((c_i - cs) / 733333), ((c_j - cs) / 733333).
  assert (Hperf : forall p, 0 <= p - ps < 2 ^ 32 ->
            perf_delta p ps f = Some ((p - ps) / f)).
  { intros p Hr. unfold perf_delta, udiv32. rewrite wrap32_diff by assumption.
    destruct (Z.eqb_spec f 0); [lia | reflexivity]. }
  assert (Htsc : forall c, 0 <= c - cs < 733333 * 2 ^ 32 ->
            tsc_delta c cs hw s = Ret ((c - cs) / 733333) s).
  { intros c Hr. unfold tsc_delta, tsc_to_ms.
    rewrite wrap64_small by lia.
    apply divl_run; try lia. apply Z.div_lt_upper_bound; lia. }
  split; [apply Hperf; lia |].
  split; [apply Hperf; lia |].
  split; [apply Z.div_le_mono; lia |].
  split.
  { unfold ticks_delta. rewrite !wrap32_diff by lia. lia. }
  split; [apply Htsc; lia |].
  split; [apply Htsc; lia |].
  apply Z.div_le_mono; lia.
Qed.

Lemma deltas_monotone_witness :
  exists pi pj ci cj,
    perf_delta 6750000 0 3375 = Some pi
    /\ perf_delta 16875000 0 3375 = Some pj
    /\ pi <= pj
    /\ ticks_delta 2000 0 <= ticks_delta 5000 0
    /\ tsc_delta 1466666000 0 nominal initial = Ret ci initial
    /\ tsc_delta 3666665000 0 nominal initial = Ret cj initial
    /\ ci <= cj.
Proof.
  apply (deltas_monotone 0 6750000 16875000 3375 0 2000 5000
           0 1466666000 3666665000 nominal initial);
    try lia; vm_compute; reflexivity.
Defined.
